(** * Daily journal: the entry routes and the two thought views

    A shallow embedding of
    - the route handlers [PUT] and [DELETE] of [/api/entry/{id}],
    - the composer widget [DailyThought] (loading, saving, toggling, rendering),
    - the history page [Thoughts] (loading),
    and the properties the specification states about them. *)

From Stdlib Require Import String Ascii List ZArith NArith Bool Lia Permutation.
From Stdlib Require DecimalString.
Import ListNotations.
Open Scope Z_scope.

(* ================================================================= *)
(** ** JavaScript strings *)

(** A JavaScript string is a sequence of UTF-16 code units. *)
Definition JsString := list N.

Definition js (s : string) : JsString :=
  map N_of_ascii (list_ascii_of_string s).
Arguments js s%_string.

Fixpoint JsString_eqb (a b : JsString) : bool :=
  match a, b with
  | [], [] => true
  | x :: a', y :: b' => N.eqb x y && JsString_eqb a' b'
  | _, _ => false
  end.

(** [WhiteSpace] and [LineTerminator] code points of ECMAScript, the ones
    [String.prototype.trim] strips: TAB, VT, FF, SP, NBSP, ZWNBSP, the
    Unicode space separators, and LF, CR, LS, PS. *)
Definition isWhiteSpace (c : N) : bool :=
  ((c =? 9) || (c =? 11) || (c =? 12) || (c =? 32) || (c =? 160)
   || (c =? 65279) || (c =? 5760) || ((8192 <=? c) && (c <=? 8202))
   || (c =? 8239) || (c =? 8287) || (c =? 12288)
   || (c =? 10) || (c =? 13) || (c =? 8232) || (c =? 8233))%N.

Fixpoint trimStart (s : JsString) : JsString :=
  match s with
  | [] => []
  | c :: s' => if isWhiteSpace c then trimStart s' else s
  end.

Definition trimEnd (s : JsString) : JsString := rev (trimStart (rev s)).

Definition trim (s : JsString) : JsString := trimEnd (trimStart s).

(** Truthiness of a string: only the empty string is falsy. *)
Definition truthy (s : JsString) : bool :=
  match s with [] => false | _ :: _ => true end.

(* ================================================================= *)
(** ** The entry routes *)

Module Route.

(** *** The relational store *)

Record EntryRow := {
  e_id : Z;
  e_text : JsString;
  e_createdAt : JsString;
  e_user : JsString
}.

Record EntryCompetencyRow := {
  entryID : Z;
  competencyID : Z
}.

Record Store := {
  Entry : list EntryRow;
  EntryCompetency : list EntryCompetencyRow
}.

(** The parameterised statements the handlers send to [connection.execute]. *)
Inductive Statement :=
| DeleteAssociations (entryId : Z)
    (* DELETE FROM EntryCompetency WHERE entryID = ? *)
| DeleteEntry (entryId : Z) (userEmail : JsString)
    (* DELETE FROM Entry WHERE id = ? AND user = ? *)
| UpdateText (text : JsString) (entryId : Z) (userEmail : JsString)
    (* UPDATE Entry SET text = ? WHERE id = ? AND user = ? *)
| InsertAssociation (entryId compID : Z)
    (* INSERT INTO EntryCompetency (entryID, competencyID) VALUES (?, ?) *)
| InsertEntry (text userEmail : JsString).
    (* the insert of the create route *)

Record ResultSetHeader := {
  affectedRows : Z;
  insertId : Z
}.

(** What a handler cannot see of the database: which statements it rejects
    (constraint violations, lost connections), the id it generates for a new
    row and its clock. *)
Record Engine := {
  db_error : Statement -> Store -> bool;
  auto_increment : Store -> Z;
  current_timestamp : Store -> JsString
}.

Definition owned (entryId : Z) (userEmail : JsString) (r : EntryRow) : bool :=
  (e_id r =? entryId) && JsString_eqb (e_user r) userEmail.

Definition of_entry (entryId : Z) (a : EntryCompetencyRow) : bool :=
  entryID a =? entryId.

Definition set_text (text : JsString) (r : EntryRow) : EntryRow :=
  {| e_id := e_id r; e_text := text;
     e_createdAt := e_createdAt r; e_user := e_user r |}.

Definition count {A} (p : A -> bool) (l : list A) : Z :=
  Z.of_nat (length (filter p l)).

(** The effect of one statement on the tables, and the header the driver
    returns for it.  With the driver's default connection flags the count of
    an [UPDATE] is that of the rows its [WHERE] clause matched, changed or
    not. *)
Definition run (E : Engine) (q : Statement) (s : Store) : Store * ResultSetHeader :=
  match q with
  | DeleteAssociations entryId =>
      ({| Entry := Entry s;
          EntryCompetency :=
            filter (fun a => negb (of_entry entryId a)) (EntryCompetency s) |},
       {| affectedRows := count (of_entry entryId) (EntryCompetency s);
          insertId := 0 |})
  | DeleteEntry entryId userEmail =>
      ({| Entry := filter (fun r => negb (owned entryId userEmail r)) (Entry s);
          EntryCompetency := EntryCompetency s |},
       {| affectedRows := count (owned entryId userEmail) (Entry s);
          insertId := 0 |})
  | UpdateText text entryId userEmail =>
      ({| Entry :=
            map (fun r => if owned entryId userEmail r then set_text text r else r)
                (Entry s);
          EntryCompetency := EntryCompetency s |},
       {| affectedRows := count (owned entryId userEmail) (Entry s);
          insertId := 0 |})
  | InsertAssociation entryId compID =>
      ({| Entry := Entry s;
          EntryCompetency :=
            EntryCompetency s ++ [{| entryID := entryId; competencyID := compID |}] |},
       {| affectedRows := 1; insertId := 0 |})
  | InsertEntry text userEmail =>
      ({| Entry :=
            Entry s ++ [{| e_id := auto_increment E s; e_text := text;
                           e_createdAt := current_timestamp E s;
                           e_user := userEmail |}];
          EntryCompetency := EntryCompetency s |},
       {| affectedRows := 1; insertId := auto_increment E s |})
  end.

(** *** Awaited computations: state, a log of statements, exceptions *)

Record World := {
  store : Store;
  executed : list Statement
}.

Inductive Completion (A : Type) :=
| Normal (a : A)
| Throw.
Arguments Normal {A} a.
Arguments Throw {A}.

Definition Async (A : Type) := World -> Completion A * World.

Definition ret {A} (a : A) : Async A := fun w => (Normal a, w).

Definition throw {A} : Async A := fun w => (Throw, w).

Definition bind {A B} (c : Async A) (k : A -> Async B) : Async B :=
  fun w =>
    match c w with
    | (Normal a, w') => k a w'
    | (Throw, w') => (Throw, w')
    end.

Notation "x <- c ;; k" := (bind c (fun x => k))
  (at level 61, c at next level, right associativity).

(** [try { body } catch (err) { return handler }]: what [body] did to the
    store before it threw stays done. *)
Definition try_catch {A} (body : Async A) (handler : A) : World -> A * World :=
  fun w =>
    match body w with
    | (Normal a, w') => (a, w')
    | (Throw, w') => (handler, w')
    end.

(** [await connection.execute(q, params)]: the statement reaches the
    database and is logged; a rejected statement changes nothing and throws. *)
Definition execute (E : Engine) (q : Statement) : Async ResultSetHeader :=
  fun w =>
    let w1 := {| store := store w; executed := executed w ++ [q] |} in
    if db_error E q (store w) then (Throw, w1)
    else
      let (s', h) := run E q (store w) in
      (Normal h, {| store := s'; executed := executed w1 |}).

Fixpoint for_of {A} (xs : list A) (body : A -> Async unit) : Async unit :=
  match xs with
  | [] => ret tt
  | x :: xs' => _ <- body x ;; for_of xs' body
  end.

(** *** Sessions, requests, responses *)

Record User := { email : option JsString }.
Record Session := { user : option User }.

(** The guard [!session || !session.user?.email] is false exactly when the
    session carries a non-empty email; that email is [userEmail]. *)
Definition session_email (session : option Session) : option JsString :=
  match session with
  | None => None
  | Some s =>
      match user s with
      | None => None
      | Some u =>
          match email u with
          | None => None
          | Some e => if truthy e then Some e else None
          end
      end
  end.

Record Body := {
  text : JsString;
  competencyIDs : list Z
}.

(** A request: [json] is what [await req.json()] resolves to, [None] when
    the body does not parse and the call rejects. *)
Record Request := { json : option Body }.

Definition req_json (req : Request) : Async Body :=
  match json req with
  | Some b => ret b
  | None => throw
  end.

Record EntryJson := {
  j_id : Z;
  j_text : JsString;
  j_createdAt : JsString;
  j_competencies : list (option Z)
}.

Inductive Payload :=
| error (msg : JsString)
| message (msg : JsString)
| entry (e : EntryJson).

Record Response := {
  status : Z;
  payload : Payload
}.

(** [NextResponse.json(data)] answers 200 unless a status is given. *)
Definition NextResponse_json (data : Payload) (init : option Z) : Response :=
  {| status := match init with Some st => st | None => 200 end;
     payload := data |}.

(** *** DELETE /api/entry/{id}

    [params_id] is the number the path segment denotes; the database
    compares it with the numeric id column. *)
Definition DELETE (E : Engine) (session : option Session) (params_id : Z)
  : World -> Response * World :=
  try_catch
    (match session_email session with
     | None => ret (NextResponse_json (error (js "Not Authenticated")) (Some 401))
     | Some userEmail =>
         let entryId := params_id in
         _ <- execute E (DeleteAssociations entryId) ;;
         result <- execute E (DeleteEntry entryId userEmail) ;;
         if affectedRows result =? 0
         then ret (NextResponse_json (error (js "Not found")) (Some 404))
         else ret (NextResponse_json (message (js "Deleted")) None)
     end)
    (NextResponse_json (error (js "Failed")) (Some 500)).

(** *** PUT /api/entry/{id} *)
Definition PUT (E : Engine) (session : option Session) (req : Request)
  (params_id : Z) : World -> Response * World :=
  try_catch
    (match session_email session with
     | None => ret (NextResponse_json (error (js "Not Authenticated")) (Some 401))
     | Some userEmail =>
         let entryId := params_id in
         b <- req_json req ;;
         result <- execute E (UpdateText (text b) entryId userEmail) ;;
         if affectedRows result =? 0
         then ret (NextResponse_json (error (js "Not found")) (Some 404))
         else
           _ <- execute E (DeleteAssociations entryId) ;;
           _ <- for_of (competencyIDs b)
                  (fun compID =>
                     _ <- execute E (InsertAssociation entryId compID) ;; ret tt) ;;
           ret (NextResponse_json (message (js "Updated")) None)
     end)
    (NextResponse_json (error (js "Failed")) (Some 500)).

(** *** The create and list routes

    Modelled from the spec: the handler of POST /api/entry (its route file is
    not among the sources).  It requires an authenticated session (401
    otherwise), inserts one Entry row owned by the caller, then one
    association row per selected competency id, and answers 200 with the
    created entry, its generated id and timestamp included; a persistence
    error gives the generic failure, with nothing rolled back. *)
Definition POST (E : Engine) (session : option Session) (req : Request)
  : World -> Response * World :=
  try_catch
    (match session_email session with
     | None => ret (NextResponse_json (error (js "Not Authenticated")) (Some 401))
     | Some userEmail =>
         b <- req_json req ;;
         createdAt <- (fun w => (Normal (current_timestamp E (store w)), w)) ;;
         result <- execute E (InsertEntry (text b) userEmail) ;;
         _ <- for_of (competencyIDs b)
                (fun compID =>
                   _ <- execute E (InsertAssociation (insertId result) compID) ;;
                   ret tt) ;;
         ret (NextResponse_json
                (entry {| j_id := insertId result; j_text := text b;
                          j_createdAt := createdAt;
                          j_competencies := map Some (competencyIDs b) |})
                None)
     end)
    (NextResponse_json (error (js "Failed")) (Some 500)).

(** Modelled from the spec: what GET /api/entry lists for a caller (its route
    file is not among the sources): all entries belonging to the caller, each
    with its associated competency id list. *)
Definition listing (s : Store) (userEmail : JsString) : list EntryJson :=
  map (fun r =>
         {| j_id := e_id r; j_text := e_text r; j_createdAt := e_createdAt r;
            j_competencies :=
              map (fun a => Some (competencyID a))
                  (filter (of_entry (e_id r)) (EntryCompetency s)) |})
      (filter (fun r => JsString_eqb (e_user r) userEmail) (Entry s)).

End Route.

(* ================================================================= *)
(** ** The views *)

(** The types both views declare, as the values are at run time: an array
    that came over the wire may hold [null] where a number is announced. *)
Module Types.

Record Thought := {
  t_id : Z;
  t_text : JsString;
  t_time : JsString;
  t_competencies : list (option Z)
}.

Record Competency := {
  c_id : Z;
  c_skill : JsString;
  c_description : JsString
}.

(** The [competencies] property of a parsed row: missing, [null], or an
    array of numbers and nulls. *)
Inductive CompetenciesField :=
| absent
| null
| array (items : list (option Z)).

Record EntryFromDB := {
  row_id : Z;
  row_text : JsString;
  row_createdAt : JsString;
  row_competencies : CompetenciesField
}.

(** The answer to [fetch("/api/entry")]: [res.ok] and the parsed body. *)
Record ListResponse := {
  list_ok : bool;
  list_json : list EntryFromDB
}.

(** [c !== null] *)
Definition not_null (c : option Z) : bool :=
  match c with Some _ => true | None => false end.

(** [(a && a.filter(c => c !== null)) || []]: a missing or null property is
    falsy; an array, even an empty one, is truthy, and so is its filtering. *)
Definition filtered_or_empty (a : CompetenciesField) : list (option Z) :=
  match a with
  | absent => []
  | null => []
  | array items => filter not_null items
  end.

(** Template-literal conversion of an integer (printed in decimal), or of
    [null]. *)
Definition Number_toString (n : Z) : JsString :=
  js (DecimalString.NilZero.string_of_int (Z.to_int n)).

Definition toString (v : option Z) : JsString :=
  match v with
  | Some n => Number_toString n
  | None => js "null"
  end.

(** [id === other] on numbers and nulls. *)
Definition strict_eq (a b : option Z) : bool :=
  match a, b with
  | Some x, Some y => x =? y
  | None, None => true
  | _, _ => false
  end.

Fixpoint join (sep : JsString) (l : list JsString) : JsString :=
  match l with
  | [] => []
  | [x] => x
  | x :: l' => x ++ sep ++ join sep l'
  end.

(** [l.slice(start, stop)] for indices that are not negative. *)
Definition slice {A} (start stop : nat) (l : list A) : list A :=
  firstn (stop - start) (skipn start l).

(** [competencies.find((c) => c.id === id)?.skill || `#${id}`] *)
Definition skillName (competencies : list Competency) (id : option Z) : JsString :=
  match find (fun c => strict_eq (Some (c_id c)) id) competencies with
  | Some c => if truthy (c_skill c) then c_skill c else js "#" ++ toString id
  | None => js "#" ++ toString id
  end.

End Types.

(** *** The composer widget, [DailyThought] *)
Module DailyThought.
Import Types.

Record State := {
  input : JsString;
  thoughts : list Thought;
  competencies : list Competency;
  selected : list (option Z);
  editingId : option Z
}.

(** The state of the first render: every [useState] default. *)
Definition initial : State :=
  {| input := []; thoughts := []; competencies := [];
     selected := []; editingId := None |}.

Definition setInput (v : JsString) (st : State) : State :=
  {| input := v; thoughts := thoughts st; competencies := competencies st;
     selected := selected st; editingId := editingId st |}.

Definition setThoughts (v : list Thought) (st : State) : State :=
  {| input := input st; thoughts := v; competencies := competencies st;
     selected := selected st; editingId := editingId st |}.

Definition setCompetencies (v : list Competency) (st : State) : State :=
  {| input := input st; thoughts := thoughts st; competencies := v;
     selected := selected st; editingId := editingId st |}.

Definition setSelected (v : list (option Z)) (st : State) : State :=
  {| input := input st; thoughts := thoughts st; competencies := competencies st;
     selected := v; editingId := editingId st |}.

Definition setEditingId (v : option Z) (st : State) : State :=
  {| input := input st; thoughts := thoughts st; competencies := competencies st;
     selected := selected st; editingId := v |}.

(** What a handler does to the outside: requests sent and alerts shown. *)
Record SaveBody := {
  b_text : JsString;
  b_competencyIDs : list (option Z)
}.

Record FetchRequest := {
  url : JsString;
  method : JsString;
  body : option SaveBody
}.

Inductive Effect :=
| Fetch (r : FetchRequest)
| Alert (msg : JsString).

(** The created entry a successful POST answers with. *)
Record NewThought := {
  n_id : Z;
  n_text : JsString;
  n_createdAt : JsString;
  n_competencies : list (option Z)
}.

(** The answer to a request: [res.ok], and what [res.json()] resolves to
    ([None] when it rejects). *)
Record FetchResponse := {
  ok : bool;
  res_json : option NewThought
}.

Section Component.

(** [new Date(s).toLocaleString("en-US", {month: "short", ...})] *)
Variable toLocaleString : JsString -> JsString.

(** The server, as the widget sees it. *)
Variable fetch : FetchRequest -> FetchResponse.

Definition formatRow (row : EntryFromDB) : Thought :=
  {| t_id := row_id row;
     t_text := row_text row;
     t_time := toLocaleString (row_createdAt row);
     t_competencies := filtered_or_empty (row_competencies row) |}.

Definition loadThoughts (res : ListResponse) (st : State) : State :=
  if negb (list_ok res) then st
  else setThoughts (map formatRow (list_json res)) st.

Definition handleSave (st : State) : State * list Effect :=
  if JsString_eqb (trim (input st)) [] then (st, [])
  else
    match editingId st with
    | Some id =>
        let req :=
          {| url := js "/api/entry/" ++ Number_toString id;
             method := js "PUT";
             body := Some {| b_text := input st;
                             b_competencyIDs := selected st |} |} in
        let res := fetch req in
        if negb (ok res)
        then (st, [Fetch req; Alert (js "Failed to update entry.")])
        else
          let updated :=
            map (fun t =>
                   if t_id t =? id
                   then {| t_id := t_id t; t_text := input st;
                           t_time := t_time t;
                           t_competencies := selected st |}
                   else t)
                (thoughts st) in
          (setEditingId None (setSelected [] (setInput [] (setThoughts updated st))),
           [Fetch req])
    | None =>
        let req :=
          {| url := js "api/entry";
             method := js "POST";
             body := Some {| b_text := input st;
                             b_competencyIDs := selected st |} |} in
        let res := fetch req in
        if negb (ok res)
        then (st, [Fetch req; Alert (js "Failed to save entry.")])
        else
          match res_json res with
          | None => (st, [Fetch req])
          | Some newThought =>
              let formattedThought :=
                {| t_id := n_id newThought;
                   t_text := n_text newThought;
                   t_time := toLocaleString (n_createdAt newThought);
                   t_competencies := n_competencies newThought |} in
              (setSelected [] (setInput [] (setThoughts (formattedThought :: thoughts st) st)),
               [Fetch req])
          end
    end.

(** [prev.includes(id)] *)
Definition includes (prev : list (option Z)) (id : Z) : bool :=
  existsb (fun c => strict_eq c (Some id)) prev.

(** The updater [toggleCompetency] hands to [setSelected]. *)
Definition toggle (id : Z) (prev : list (option Z)) : list (option Z) :=
  if includes prev id
  then filter (fun c => negb (strict_eq c (Some id))) prev
  else prev ++ [Some id].

Definition toggleCompetency (id : Z) (st : State) : State :=
  setSelected (toggle id (selected st)) st.

Definition handleDelete (id : Z) (st : State) : State * list Effect :=
  let req :=
    {| url := js "/api/entry/" ++ Number_toString id;
       method := js "DELETE"; body := None |} in
  let res := fetch req in
  if negb (ok res) then (st, [Fetch req; Alert (js "Failed to delete")])
  else (setThoughts (filter (fun t => negb (t_id t =? id)) (thoughts st)) st,
        [Fetch req]).

(** [window.scrollTo(0, 0)] leaves the state alone and is not modelled. *)
Definition handleEdit (thought : Thought) (st : State) : State :=
  setEditingId (Some (t_id thought))
    (setSelected (t_competencies thought) (setInput (t_text thought) st)).

Definition handleCancel (st : State) : State :=
  setEditingId None (setSelected [] (setInput [] st)).

(** *** What the widget shows of its thoughts *)

Record Card := {
  key : Z;
  card_text : JsString;
  card_time : JsString;
  card_competencies : option JsString
}.

Inductive ThoughtList :=
| Placeholder (p : JsString)
| Cards (cards : list Card).

Definition renderCard (cs : list Competency) (thought : Thought) : Card :=
  {| key := t_id thought;
     card_text := t_text thought;
     card_time := t_time thought;
     card_competencies :=
       if (0 <? length (t_competencies thought))%nat
       then Some (join (js ", ") (map (skillName cs) (t_competencies thought)))
       else None |}.

Definition render (st : State) : ThoughtList :=
  if (length (thoughts st) =? 0)%nat
  then Placeholder (js "No thoughts yet. Start typing!")
  else Cards (map (renderCard (competencies st)) (slice 0 5 (thoughts st))).

End Component.

End DailyThought.

(** *** The history page, [Thoughts] *)
Module ThoughtsPage.
Import Types.

Record State := {
  thoughts : list Thought;
  competencies : list Competency
}.

Definition setThoughts (v : list Thought) (st : State) : State :=
  {| thoughts := v; competencies := competencies st |}.

Section Component.

Variable toLocaleString : JsString -> JsString.

Definition formatRow (row : EntryFromDB) : Thought :=
  {| t_id := row_id row;
     t_text := row_text row;
     t_time := toLocaleString (row_createdAt row);
     t_competencies := filtered_or_empty (row_competencies row) |}.

Definition loadThoughts (res : ListResponse) (st : State) : State :=
  if negb (list_ok res) then st
  else setThoughts (map formatRow (list_json res)) st.

End Component.

Section Handlers.

(** The server, as the page sees it. *)
Variable fetch : DailyThought.FetchRequest -> DailyThought.FetchResponse.

(** The Edit button of a thought.  [answer] is what [window.prompt]
    returned, [None] when the dialog was dismissed; [!newText] also holds for
    the empty string. *)
Definition onEdit (answer : option JsString) (thought : Thought) (st : State)
  : State * list DailyThought.Effect :=
  match answer with
  | None => (st, [])
  | Some newText =>
      if negb (truthy newText) || JsString_eqb (trim newText) [] then (st, [])
      else
        let req :=
          {| DailyThought.url := js "/api/entry/" ++ Number_toString (t_id thought);
             DailyThought.method := js "PUT";
             DailyThought.body :=
               Some {| DailyThought.b_text := newText;
                       DailyThought.b_competencyIDs := t_competencies thought |} |} in
        let res := fetch req in
        if negb (DailyThought.ok res)
        then (st, [DailyThought.Fetch req;
                   DailyThought.Alert (js "Failed to update entry.")])
        else
          (setThoughts
             (map (fun t =>
                     if t_id t =? t_id thought
                     then {| t_id := t_id t; t_text := newText;
                             t_time := t_time t;
                             t_competencies := t_competencies t |}
                     else t)
                  (thoughts st)) st,
           [DailyThought.Fetch req])
  end.

(** The Delete button of a thought.  [confirmed] is what [confirm]
    returned. *)
Definition onDelete (confirmed : bool) (thought : Thought) (st : State)
  : State * list DailyThought.Effect :=
  if negb confirmed then (st, [])
  else
    let req :=
      {| DailyThought.url := js "/api/entry/" ++ Number_toString (t_id thought);
         DailyThought.method := js "DELETE";
         DailyThought.body := None |} in
    let res := fetch req in
    if negb (DailyThought.ok res)
    then (st, [DailyThought.Fetch req; DailyThought.Alert (js "Failed to delete")])
    else
      (setThoughts (filter (fun t => negb (t_id t =? t_id thought)) (thoughts st)) st,
       [DailyThought.Fetch req]).

End Handlers.

(** *** What the page shows of its thoughts *)

Record Chip := {
  chip_key : option Z;
  chip_name : JsString
}.

Record Card := {
  key : Z;
  card_text : JsString;
  card_time : JsString;
  card_chips : option (list Chip)
}.

Inductive ThoughtList :=
| Placeholder (p : JsString)
| Cards (cards : list Card).

Definition renderCard (cs : list Competency) (thought : Thought) : Card :=
  {| key := t_id thought;
     card_text := t_text thought;
     card_time := t_time thought;
     card_chips :=
       if (0 <? length (t_competencies thought))%nat
       then Some (map (fun id => {| chip_key := id; chip_name := skillName cs id |})
                      (t_competencies thought))
       else None |}.

Definition render (st : State) : ThoughtList :=
  if (length (thoughts st) =? 0)%nat
  then Placeholder (js "No thoughts yet. Start typing!")
  else Cards (map (renderCard (competencies st)) (thoughts st)).

End ThoughtsPage.

(* ================================================================= *)
(** ** Vocabulary of the statements *)

Module Outcome.
Import Route.

(** The database accepts every statement. *)
Definition reliable (E : Engine) : Prop :=
  forall q s, db_error E q s = false.

Definition not_authenticated : Response :=
  NextResponse_json (error (js "Not Authenticated")) (Some 401).

Definition not_found : Response :=
  NextResponse_json (error (js "Not found")) (Some 404).

Definition failed : Response :=
  NextResponse_json (error (js "Failed")) (Some 500).

Definition deleted : Response :=
  NextResponse_json (message (js "Deleted")) None.

Definition updated : Response :=
  NextResponse_json (message (js "Updated")) None.

Definition association (entryId compID : Z) : EntryCompetencyRow :=
  {| entryID := entryId; competencyID := compID |}.

(** The insert the loop of [PUT] awaits for one competency id. *)
Definition insert_one (E : Engine) (entryId compID : Z) : Async unit :=
  _ <- execute E (InsertAssociation entryId compID) ;; ret tt.

(** An engine that accepts everything, numbers new rows after the largest
    id and never moves its clock; and a small store: entry 7 of ann with
    competencies 1 and 2, entry 8 of bob with competency 1. *)
Definition steady : Engine :=
  {| db_error := fun _ _ => false;
     auto_increment := fun s => 1 + fold_right Z.max 0 (map e_id (Entry s));
     current_timestamp := fun _ => js "2024-01-01T00:00:00.000Z" |}.

Definition ann : JsString := js "ann@example.org".
Definition bob : JsString := js "bob@example.org".

Definition signed_in (who : JsString) : option Session :=
  Some {| user := Some {| email := Some who |} |}.

Definition sample_store : Store :=
  {| Entry :=
       [ {| e_id := 7; e_text := js "hello"; e_createdAt := js "t7"; e_user := ann |};
         {| e_id := 8; e_text := js "other"; e_createdAt := js "t8"; e_user := bob |} ];
     EntryCompetency := [ association 7 1; association 8 1; association 7 2 ] |}.

Definition sample : World := {| store := sample_store; executed := [] |}.

End Outcome.

Module Scenario.
Import Types DailyThought.

(** A text of white space only: space, tab, no-break space, line feed. *)
Definition blank : JsString := [32; 9; 160; 10]%N.

(** A server that refuses everything, and a date formatter that prints the
    timestamp as it is. *)
Definition refusing (_ : FetchRequest) : FetchResponse :=
  {| ok := false; res_json := None |}.

Definition verbatim (createdAt : JsString) : JsString := createdAt.

(** The widget in the middle of an edit of thought 7, with a blank text. *)
Definition draft : State :=
  {| input := blank;
     thoughts := [ {| t_id := 7; t_text := js "hello"; t_time := js "Jan 01, 2024";
                      t_competencies := [Some 1; Some 2] |} ];
     competencies := [ {| c_id := 1; c_skill := js "Teamwork";
                          c_description := js "Works with others" |} ];
     selected := [Some 1; Some 2];
     editingId := Some 7 |}.

(** The ids a parsed row announces: those of its array, none when the
    property is missing or null. *)
Definition announced (row : EntryFromDB) : list (option Z) :=
  match row_competencies row with
  | array items => items
  | absent | null => []
  end.

End Scenario.

Module Fixtures.
Import Route Outcome.


(** The body of a request that retags an entry with 3 and 1. *)
Definition retag : Body := {| text := js "new"; competencyIDs := [3; 1] |}.

Definition sending (b : Body) : Request := {| json := Some b |}.

(** A server that accepts everything and answers a create with entry 9,
    one of whose competency ids is null. *)
Definition accepting (_ : DailyThought.FetchRequest) : DailyThought.FetchResponse :=
  {| DailyThought.ok := true;
     DailyThought.res_json :=
       Some {| DailyThought.n_id := 9; DailyThought.n_text := js " hi ";
               DailyThought.n_createdAt := js "2024-01-02";
               DailyThought.n_competencies := [Some 2; None] |} |}.

Definition hello : Types.Thought :=
  {| Types.t_id := 7; Types.t_text := js "hello"; Types.t_time := js "Jan 01, 2024";
     Types.t_competencies := [Some 1; Some 2] |}.

Definition other : Types.Thought :=
  {| Types.t_id := 8; Types.t_text := js "other"; Types.t_time := js "Jan 02, 2024";
     Types.t_competencies := [] |}.

Definition teamwork : Types.Competency :=
  {| Types.c_id := 1; Types.c_skill := js "Teamwork";
     Types.c_description := js "Works with others" |}.

(** The widget with two thoughts while a new one, padded with spaces, is
    typed and competency 2 is ticked. *)
Definition typing : DailyThought.State :=
  {| DailyThought.input := js " hi ";
     DailyThought.thoughts := [hello; other];
     DailyThought.competencies := [teamwork];
     DailyThought.selected := [Some 2];
     DailyThought.editingId := None |}.

(** The same widget at rest. *)
Definition resting : DailyThought.State :=
  {| DailyThought.input := [];
     DailyThought.thoughts := [hello; other];
     DailyThought.competencies := [teamwork];
     DailyThought.selected := [];
     DailyThought.editingId := None |}.

(** The history page with the same two thoughts. *)
Definition history : ThoughtsPage.State :=
  {| ThoughtsPage.thoughts := [hello; other];
     ThoughtsPage.competencies := [teamwork] |}.

End Fixtures.

(* ================================================================= *)
(** ** Properties of the routes *)

Section StringFacts.

Lemma JsString_eqb_eq (a b : JsString) : JsString_eqb a b = true <-> a = b.
Proof.
  revert b; induction a as [|x a IH]; intros [|y b]; simpl;
    try (split; [discriminate | discriminate]); try tauto.
  rewrite andb_true_iff, N.eqb_eq, IH.
  split; [intros [-> ->]; reflexivity | intros H; inversion H; auto].
Qed.

Lemma JsString_eqb_refl (a : JsString) : JsString_eqb a a = true.
Proof. apply JsString_eqb_eq; reflexivity. Qed.

End StringFacts.

Section RouteFacts.
Import Route Outcome.

Lemma owned_true entryId userEmail r :
  owned entryId userEmail r = true <-> e_id r = entryId /\ e_user r = userEmail.
Proof.
  unfold owned. rewrite andb_true_iff, Z.eqb_eq, JsString_eqb_eq. tauto.
Qed.

Lemma count_zero {A} (p : A -> bool) (l : list A) :
  count p l = 0 <-> forall x, In x l -> p x = false.
Proof.
  unfold count. induction l as [|a l IH]; simpl.
  - split; [intros _ x [] | reflexivity].
  - destruct (p a) eqn:Hp; simpl.
    + split; [lia | intros H; specialize (H a (or_introl eq_refl)); congruence].
    + rewrite IH. split.
      * intros H x [<-|Hx]; auto.
      * intros H x Hx; apply H; auto.
Qed.

Lemma count_pos {A} (p : A -> bool) (l : list A) :
  (count p l =? 0) = false <-> exists x, In x l /\ p x = true.
Proof.
  rewrite Z.eqb_neq. split.
  - intros Hn. induction l as [|a l IH].
    + exfalso; apply Hn; reflexivity.
    + destruct (p a) eqn:Hp.
      * exists a; split; [left; reflexivity | assumption].
      * destruct IH as [x [Hx Hpx]].
        { intros H0; apply Hn. unfold count in *; simpl; rewrite Hp; exact H0. }
        exists x; split; [right; assumption | assumption].
  - intros [x [Hx Hpx]] H0. rewrite count_zero in H0.
    rewrite (H0 x Hx) in Hpx; discriminate.
Qed.

(** The laws the handlers' proofs compute with. *)
Lemma bind_ret {A B} (a : A) (k : A -> Async B) w : bind (ret a) k w = k a w.
Proof. reflexivity. Qed.

Lemma bind_throw {A B} (k : A -> Async B) w : bind throw k w = (Throw, w).
Proof. reflexivity. Qed.

Lemma bind_assoc {A B C} (c : Async A) (f : A -> Async B) (g : B -> Async C) w :
  bind (bind c f) g w = bind c (fun x => bind (f x) g) w.
Proof. unfold bind. destruct (c w) as [[a|] w1]; reflexivity. Qed.

Lemma bind_execute {B} E q (k : ResultSetHeader -> Async B) w :
  bind (execute E q) k w
  = if db_error E q (store w)
    then (Throw, {| store := store w; executed := executed w ++ [q] |})
    else k (snd (run E q (store w)))
           {| store := fst (run E q (store w)); executed := executed w ++ [q] |}.
Proof.
  unfold bind, execute. destruct (db_error E q (store w)); [reflexivity|].
  destruct (run E q (store w)); reflexivity.
Qed.

Lemma for_of_cons E entryId c ids w :
  for_of (c :: ids) (insert_one E entryId) w
  = bind (execute E (InsertAssociation entryId c))
      (fun _ => for_of ids (insert_one E entryId)) w.
Proof.
  cbn [for_of]. unfold insert_one at 1. rewrite bind_assoc. reflexivity.
Qed.

(** Running the loop of inserts to its end adds one row per id, in order,
    after the rows that were there, and touches nothing else. *)
Lemma for_of_inserts E entryId ids :
  forall w w',
    for_of ids (insert_one E entryId) w = (Normal tt, w') ->
    Entry (store w') = Entry (store w)
    /\ EntryCompetency (store w')
       = EntryCompetency (store w) ++ map (association entryId) ids
    /\ executed w' = executed w ++ map (InsertAssociation entryId) ids.
Proof.
  induction ids as [|c ids IH]; intros w w' H.
  - inversion H; subst; simpl. rewrite !app_nil_r; auto.
  - rewrite for_of_cons, bind_execute in H.
    destruct (db_error E (InsertAssociation entryId c) (store w)); [discriminate|].
    apply IH in H. simpl in H.
    destruct H as (He & Ha & Hx). rewrite He, Ha, Hx.
    rewrite <- !app_assoc. simpl. auto.
Qed.

(** With a database that accepts every statement the loop does end. *)
Lemma for_of_inserts_reliable E entryId ids :
  reliable E ->
  forall w, exists w', for_of ids (insert_one E entryId) w = (Normal tt, w').
Proof.
  intros HE. induction ids as [|c ids IH]; intros w.
  - eexists; reflexivity.
  - rewrite for_of_cons, bind_execute, HE. apply IH.
Qed.

End RouteFacts.

Section PutFacts.
Import Route Outcome.

Variable E : Engine.
Variables (session : option Session) (req : Request) (id : Z).
Variables (userEmail : JsString) (b : Body).
Hypothesis Hauth : session_email session = Some userEmail.
Hypothesis Hbody : json req = Some b.

(** The handler past its guard and the parsing of the body. *)
Lemma PUT_authenticated w :
  PUT E session req id w
  = try_catch
      (result <- execute E (UpdateText (text b) id userEmail) ;;
       if affectedRows result =? 0
       then ret not_found
       else
         _ <- execute E (DeleteAssociations id) ;;
         _ <- for_of (competencyIDs b) (insert_one E id) ;;
         ret updated)
      failed w.
Proof.
  unfold PUT, req_json. rewrite Hauth, Hbody. reflexivity.
Qed.

(** A call that answers 200 has run the update on a matching row, the
    delete of the associations and every insert. *)
Lemma PUT_ok_inv w r w' :
  PUT E session req id w = (r, w') ->
  status r = 200 ->
  (exists row, In row (Entry (store w)) /\ owned id userEmail row = true)
  /\ Entry (store w')
     = map (fun row => if owned id userEmail row then set_text (text b) row else row)
           (Entry (store w))
  /\ EntryCompetency (store w')
     = filter (fun a => negb (of_entry id a)) (EntryCompetency (store w))
       ++ map (association id) (competencyIDs b)
  /\ executed w'
     = executed w
       ++ [UpdateText (text b) id userEmail; DeleteAssociations id]
       ++ map (InsertAssociation id) (competencyIDs b).
Proof.
  rewrite PUT_authenticated. unfold try_catch. rewrite bind_execute.
  destruct (db_error E _ (store w)).
  { intros H; inversion H; subst; simpl; discriminate. }
  cbn [run snd fst affectedRows].
  destruct (count (owned id userEmail) (Entry (store w)) =? 0) eqn:Hn.
  { intros H; inversion H; subst; simpl; discriminate. }
  rewrite bind_execute. cbn [store executed].
  destruct (db_error E (DeleteAssociations id) _).
  { intros H; inversion H; subst; simpl; discriminate. }
  cbn [run snd fst].
  unfold bind at 1.
  destruct (for_of (competencyIDs b) (insert_one E id) _) as [[[]|] w3] eqn:Hloop.
  2:{ intros H; inversion H; subst; simpl; discriminate. }
  apply for_of_inserts in Hloop. cbn [store executed Entry EntryCompetency] in Hloop.
  destruct Hloop as (He & Ha & Hx).
  intros H _; inversion H; subst r w'; clear H.
  split; [apply count_pos; exact Hn|].
  rewrite He, Ha, Hx, <- !app_assoc. simpl. auto.
Qed.

(** A call for an id of which the caller owns no row: the update matches
    nothing and the handler stops there. *)
Lemma PUT_not_owned w :
  (forall row, In row (Entry (store w)) -> owned id userEmail row = false) ->
  PUT E session req id w
  = if db_error E (UpdateText (text b) id userEmail) (store w)
    then (failed, {| store := store w;
                     executed := executed w ++ [UpdateText (text b) id userEmail] |})
    else (not_found,
          {| store := fst (run E (UpdateText (text b) id userEmail) (store w));
             executed := executed w ++ [UpdateText (text b) id userEmail] |}).
Proof.
  intros Hnone. rewrite PUT_authenticated. unfold try_catch. rewrite bind_execute.
  destruct (db_error E _ (store w)); [reflexivity|].
  cbn [run snd fst affectedRows].
  apply count_zero in Hnone. rewrite Hnone. reflexivity.
Qed.

(** A call on an entry the caller owns, against a database that accepts
    every statement, answers 200. *)
Lemma PUT_succeeds w :
  reliable E ->
  (exists row, In row (Entry (store w)) /\ owned id userEmail row = true) ->
  fst (PUT E session req id w) = updated.
Proof.
  intros HE Hrow. rewrite PUT_authenticated. unfold try_catch.
  rewrite bind_execute, HE. cbn [run snd fst affectedRows].
  apply count_pos in Hrow. rewrite Hrow.
  rewrite bind_execute, HE. unfold bind at 1.
  match goal with
  | |- context [for_of _ _ ?w0] =>
      destruct (for_of_inserts_reliable E id (competencyIDs b) HE w0) as [w3 Hw3]
  end.
  rewrite Hw3. reflexivity.
Qed.

End PutFacts.

Section GuardFacts.
Import Route Outcome.

(** A body that does not parse makes the handler answer 500 before any
    statement is sent. *)
Lemma PUT_unparsed E session req id userEmail w :
  session_email session = Some userEmail ->
  json req = None ->
  PUT E session req id w = (failed, w).
Proof.
  intros Hauth Hbody. unfold PUT, req_json. rewrite Hauth, Hbody. reflexivity.
Qed.

(** The guard lets a session through exactly when it carries a non-empty
    email. *)
Lemma session_email_None session :
  session_email session = None <->
  session = None
  \/ exists s, session = Some s
       /\ (user s = None
           \/ exists u, user s = Some u /\ (email u = None \/ email u = Some [])).
Proof.
  unfold session_email. split.
  - destruct session as [s|]; [|auto]. intros H. right. exists s. split; [reflexivity|].
    destruct (user s) as [u|]; [|auto]. right. exists u. split; [reflexivity|].
    destruct (email u) as [[|c e]|]; auto; simpl in H; discriminate.
  - intros [->|[s [-> [Hu|[u [Hu [He|He]]]]]]]; try reflexivity;
      rewrite Hu; try reflexivity; rewrite He; reflexivity.
Qed.

End GuardFacts.

Section AssociationFacts.
Import Route Outcome.

Lemma filter_none {A} (p : A -> bool) (l : list A) :
  filter p (filter (fun a => negb (p a)) l) = [].
Proof.
  induction l as [|a l IH]; simpl; [reflexivity|].
  destruct (p a) eqn:Hp; simpl; [assumption|]. rewrite Hp; assumption.
Qed.

Lemma filter_idem {A} (p : A -> bool) (l : list A) :
  filter p (filter p l) = filter p l.
Proof.
  induction l as [|a l IH]; simpl; [reflexivity|].
  destruct (p a) eqn:Hp; simpl; [rewrite Hp, IH; reflexivity | assumption].
Qed.

Lemma filter_all {A} (p : A -> bool) (l : list A) :
  (forall a, In a l -> p a = true) -> filter p l = l.
Proof.
  induction l as [|a l IH]; simpl; intros H; [reflexivity|].
  rewrite (H a (or_introl eq_refl)), IH; auto.
Qed.

Lemma of_entry_association entryId c : of_entry entryId (association entryId c) = true.
Proof. unfold of_entry; simpl. apply Z.eqb_refl. Qed.

(** After delete-all then insert-set the rows of the entry are the
    submitted ids, one row each, in the order submitted. *)
Lemma rows_of_entry_replaced entryId ids (l : list EntryCompetencyRow) :
  filter (of_entry entryId)
    (filter (fun a => negb (of_entry entryId a)) l ++ map (association entryId) ids)
  = map (association entryId) ids.
Proof.
  rewrite filter_app, filter_none. simpl. apply filter_all.
  intros a Ha. apply in_map_iff in Ha. destruct Ha as [c [<- _]].
  apply of_entry_association.
Qed.

(** The rows of every other entry stay as they were. *)
Lemma rows_of_others_kept entryId ids (l : list EntryCompetencyRow) :
  filter (fun a => negb (of_entry entryId a))
    (filter (fun a => negb (of_entry entryId a)) l ++ map (association entryId) ids)
  = filter (fun a => negb (of_entry entryId a)) l.
Proof.
  rewrite filter_app, filter_idem.
  replace (filter _ (map (association entryId) ids)) with (@nil EntryCompetencyRow).
  - apply app_nil_r.
  - symmetry. induction ids as [|c ids IH]; simpl; [reflexivity|].
    rewrite of_entry_association. simpl. exact IH.
Qed.

Lemma association_inj entryId c c' :
  association entryId c = association entryId c' -> c = c'.
Proof. intros H; inversion H; reflexivity. Qed.

Lemma in_rows_of_entry entryId ids (l : list EntryCompetencyRow) c :
  In (association entryId c)
     (filter (fun a => negb (of_entry entryId a)) l ++ map (association entryId) ids)
  <-> In c ids.
Proof.
  rewrite in_app_iff, filter_In, in_map_iff. split.
  - intros [[_ H] | [c' [H Hc]]].
    + rewrite of_entry_association in H; discriminate.
    + apply association_inj in H; subst; assumption.
  - intros H; right; exists c; auto.
Qed.

End AssociationFacts.

Section DeleteFacts.
Import Route Outcome.

Variable E : Engine.
Variables (session : option Session) (id : Z) (userEmail : JsString).
Hypothesis Hauth : session_email session = Some userEmail.

(** The handler past its guard. *)
Lemma DELETE_authenticated w :
  DELETE E session id w
  = try_catch
      (_ <- execute E (DeleteAssociations id) ;;
       result <- execute E (DeleteEntry id userEmail) ;;
       if affectedRows result =? 0 then ret not_found else ret deleted)
      failed w.
Proof.
  unfold DELETE. rewrite Hauth. reflexivity.
Qed.

(** The answer and the world after the call, statement by statement. *)
Lemma DELETE_run w :
  DELETE E session id w
  = if db_error E (DeleteAssociations id) (store w)
    then (failed, {| store := store w;
                     executed := executed w ++ [DeleteAssociations id] |})
    else
      let s1 := fst (run E (DeleteAssociations id) (store w)) in
      let x1 := executed w ++ [DeleteAssociations id] in
      if db_error E (DeleteEntry id userEmail) s1
      then (failed, {| store := s1;
                       executed := x1 ++ [DeleteEntry id userEmail] |})
      else
        (if count (owned id userEmail) (Entry (store w)) =? 0
         then not_found else deleted,
         {| store := fst (run E (DeleteEntry id userEmail) s1);
            executed := x1 ++ [DeleteEntry id userEmail] |}).
Proof.
  rewrite DELETE_authenticated. unfold try_catch. rewrite bind_execute.
  destruct (db_error E (DeleteAssociations id) (store w)); [reflexivity|].
  rewrite bind_execute. cbn [store executed]. cbv zeta.
  destruct (db_error E (DeleteEntry id userEmail) _); [reflexivity|].
  cbn [run snd fst affectedRows Entry].
  destruct (count (owned id userEmail) (Entry (store w)) =? 0); reflexivity.
Qed.

(** The delete of the associations comes before the owner is looked at: a
    call for an entry the caller does not own is answered not-found, and the
    association rows of that entry are gone all the same. *)
Lemma DELETE_not_owned w :
  reliable E ->
  (forall row, In row (Entry (store w)) -> owned id userEmail row = false) ->
  DELETE E session id w
  = (not_found,
     {| store :=
          {| Entry := Entry (store w);
             EntryCompetency :=
               filter (fun a => negb (of_entry id a)) (EntryCompetency (store w)) |};
        executed :=
          executed w ++ [DeleteAssociations id; DeleteEntry id userEmail] |}).
Proof.
  intros HE Hnone. rewrite DELETE_run, HE. cbv zeta. rewrite HE.
  pose proof Hnone as H0. apply count_zero in H0. rewrite H0.
  cbn [run fst Entry EntryCompetency Z.eqb]. rewrite <- app_assoc.
  rewrite filter_all; [reflexivity|].
  intros row Hin. rewrite (Hnone row Hin). reflexivity.
Qed.

End DeleteFacts.

Section ListingFacts.
Import Route Outcome.

Lemma in_listing s u j :
  In j (listing s u) ->
  exists row, In row (Entry s) /\ e_user row = u /\ j_id j = e_id row.
Proof.
  unfold listing. rewrite in_map_iff. intros [row [<- Hrow]].
  apply filter_In in Hrow. destruct Hrow as [Hin Hu].
  apply JsString_eqb_eq in Hu. exists row; auto.
Qed.

(** In a table whose ids are unique a row is determined by its id. *)
Lemma unique_id_row (l : list EntryRow) x y :
  NoDup (map e_id l) -> In x l -> In y l -> e_id x = e_id y -> x = y.
Proof.
  induction l as [|a l IH]; simpl; intros Hnd Hx Hy Hid; [contradiction|].
  inversion Hnd as [|? ? Hnotin Hnd']; subst.
  destruct Hx as [<-|Hx], Hy as [<-|Hy]; auto.
  - exfalso; apply Hnotin. rewrite Hid. apply in_map; assumption.
  - exfalso; apply Hnotin. rewrite <- Hid. apply in_map; assumption.
Qed.

End ListingFacts.

(* ================================================================= *)
(** ** The claims about the routes *)

Section RouteClaims.
Import Route Outcome.

(** C1. A successful PUT /api/entry/{id} with body {text, competencyIDs}
    overwrites the stored text of the caller's entry and replaces its
    association rows: after the call the rows of the entry are exactly one
    row per submitted id (as a list, hence as a set), the rows that were
    there before are gone whether or not the set changed, the rows of other
    entries and the other entries are untouched, and the statements sent are
    the update, the unconditional delete and one insert per id.  With
    [competencyIDs = []] the entry is left with no association row. *)
Theorem put_replaces_text_and_associations
  (E : Engine) (session : option Session) (req : Request) (id : Z)
  (userEmail : JsString) (b : Body) (w w' : World) (r : Response) :
  session_email session = Some userEmail ->
  json req = Some b ->
  PUT E session req id w = (r, w') ->
  status r = 200 ->
  (exists row, In row (Entry (store w'))
               /\ e_id row = id /\ e_user row = userEmail)
  /\ (forall row, In row (Entry (store w')) ->
        e_id row = id -> e_user row = userEmail -> e_text row = text b)
  /\ Entry (store w')
     = map (fun row => if owned id userEmail row then set_text (text b) row else row)
           (Entry (store w))
  /\ filter (of_entry id) (EntryCompetency (store w'))
     = map (association id) (competencyIDs b)
  /\ (forall c, In (association id c) (EntryCompetency (store w'))
                <-> In c (competencyIDs b))
  /\ filter (fun a => negb (of_entry id a)) (EntryCompetency (store w'))
     = filter (fun a => negb (of_entry id a)) (EntryCompetency (store w))
  /\ executed w'
     = executed w
       ++ [UpdateText (text b) id userEmail; DeleteAssociations id]
       ++ map (InsertAssociation id) (competencyIDs b)
  /\ (competencyIDs b = [] ->
      forall a, In a (EntryCompetency (store w')) -> entryID a <> id).
Proof.
  intros Hauth Hbody Hrun Hok.
  destruct (PUT_ok_inv E session req id userEmail b Hauth Hbody w r w' Hrun Hok)
    as ([row [Hin Hown]] & HE & HA & HX).
  assert (Htext : forall x, In x (Entry (store w')) ->
            e_id x = id -> e_user x = userEmail -> e_text x = text b).
  { intros x Hx Hid Hu. rewrite HE in Hx. apply in_map_iff in Hx.
    destruct Hx as [y [Hy _]].
    destruct (owned id userEmail y) eqn:Hy'.
    - subst x; reflexivity.
    - subst x. assert (owned id userEmail y = true) by (apply owned_true; auto).
      congruence. }
  repeat split.
  - exists (set_text (text b) row). split.
    + rewrite HE. apply in_map_iff. exists row. rewrite Hown. auto.
    + apply owned_true in Hown. simpl. exact Hown.
  - exact Htext.
  - exact HE.
  - rewrite HA. apply rows_of_entry_replaced.
  - rewrite HA. apply in_rows_of_entry.
  - rewrite HA. apply in_rows_of_entry.
  - rewrite HA. apply rows_of_others_kept.
  - exact HX.
  - intros Hnil a Ha Hid. rewrite HA, Hnil in Ha. simpl in Ha.
    rewrite app_nil_r in Ha. apply filter_In in Ha. destruct Ha as [_ Ha].
    unfold of_entry in Ha. apply Z.eqb_eq in Hid. rewrite Hid in Ha. discriminate.
Qed.

(** The call of ann on her entry 7 with a new text and the ids 3 and 1. *)
Lemma put_replaces_text_and_associations_witness :
  filter (of_entry 7)
    (EntryCompetency
       (store (snd (PUT steady (signed_in ann)
                      {| json := Some {| text := js "new"; competencyIDs := [3; 1] |} |}
                      7 sample))))
  = [association 7 3; association 7 1].
Proof.
  refine (proj1 (proj2 (proj2 (proj2
    (put_replaces_text_and_associations steady (signed_in ann)
       {| json := Some {| text := js "new"; competencyIDs := [3; 1] |} |}
       7 ann {| text := js "new"; competencyIDs := [3; 1] |}
       sample _ _ eq_refl eq_refl (surjective_pairing _) _))))).
  vm_compute. reflexivity.
Defined.

(** C2. An authenticated PUT or DELETE to /api/entry/{id} for an id of which
    no row belongs to the caller, in particular an id that exists under a
    different owner, is answered with the not-found response, status 404: the
    very response an absent id gets.  The status is never 200 and never 403;
    the only other answer is the generic 500, when the database rejects a
    statement or the body of the PUT does not parse. *)
Theorem foreign_entry_is_not_found
  (E : Engine) (session : option Session) (req : Request) (id : Z)
  (caller : JsString) (w : World) :
  session_email session = Some caller ->
  (forall row, In row (Entry (store w)) -> e_id row = id -> e_user row <> caller) ->
  let put := fst (PUT E session req id w) in
  let del := fst (DELETE E session id w) in
  (put = not_found \/ put = failed)
  /\ (del = not_found \/ del = failed)
  /\ status put <> 200 /\ status put <> 403
  /\ status del <> 200 /\ status del <> 403
  /\ (reliable E -> json req <> None -> put = not_found /\ status put = 404)
  /\ (reliable E -> del = not_found /\ status del = 404).
Proof.
  intros Hauth Hforeign put del.
  assert (Hnone : forall row, In row (Entry (store w)) -> owned id caller row = false).
  { intros row Hin. destruct (owned id caller row) eqn:Ho; [|reflexivity].
    apply owned_true in Ho. destruct Ho as [Hid Hu].
    exfalso; exact (Hforeign row Hin Hid Hu). }
  assert (Hput : (put = not_found \/ put = failed)
                 /\ (reliable E -> json req <> None -> put = not_found)).
  { subst put. destruct (json req) as [b|] eqn:Hbody.
    - rewrite (PUT_not_owned E session req id caller b Hauth Hbody w Hnone).
      split.
      + destruct (db_error E _ (store w)); simpl; auto.
      + intros HE _. rewrite HE. reflexivity.
    - rewrite (PUT_unparsed E session req id caller w Hauth Hbody). simpl.
      split; [auto | intros _ H; exfalso; apply H; reflexivity]. }
  assert (Hdel : (del = not_found \/ del = failed)
                 /\ (reliable E -> del = not_found)).
  { subst del. rewrite (DELETE_run E session id caller Hauth w).
    apply count_zero in Hnone. split.
    - destruct (db_error E (DeleteAssociations id) (store w)); simpl; auto.
      destruct (db_error E (DeleteEntry id caller) _); simpl; auto.
      rewrite Hnone; auto.
    - intros HE. rewrite HE. cbv zeta. rewrite HE, Hnone. reflexivity. }
  destruct Hput as [Hput Hput'], Hdel as [Hdel Hdel'].
  repeat split.
  - exact Hput.
  - exact Hdel.
  - destruct Hput as [->| ->]; discriminate.
  - destruct Hput as [->| ->]; discriminate.
  - destruct Hdel as [->| ->]; discriminate.
  - destruct Hdel as [->| ->]; discriminate.
  - apply Hput'; assumption.
  - rewrite Hput' by assumption. reflexivity.
  - apply Hdel'; assumption.
  - rewrite Hdel' by assumption. reflexivity.
Qed.

(** Ann asks for entry 8, which exists and is bob's. *)
Lemma foreign_entry_is_not_found_witness :
  status (fst (PUT steady (signed_in ann)
                 {| json := Some {| text := js "mine now"; competencyIDs := [2] |} |}
                 8 sample)) = 404
  /\ status (fst (DELETE steady (signed_in ann) 8 sample)) = 404.
Proof.
  pose proof (foreign_entry_is_not_found steady (signed_in ann)
                {| json := Some {| text := js "mine now"; competencyIDs := [2] |} |}
                8 ann sample eq_refl) as H.
  assert (Hforeign : forall row, In row (Entry (store sample)) ->
                       e_id row = 8 -> e_user row <> ann).
  { simpl. intros row [<-|[<-|[]]] Hid; simpl in *; [lia | discriminate]. }
  destruct (H Hforeign) as (_ & _ & _ & _ & _ & _ & Hput & Hdel).
  split.
  - apply Hput; [intros q s0; reflexivity | discriminate].
  - apply Hdel. intros q s0; reflexivity.
Defined.

(** C3. A POST, PUT or DELETE without a valid authenticated session (no
    session, a session without a user, or a user without an email) is
    answered 401 before any statement is sent to the database: the store and
    the log of executed statements are what they were. *)
Theorem unauthenticated_requests_change_nothing
  (E : Engine) (session : option Session) (req : Request) (id : Z) (w : World) :
  session_email session = None ->
  POST E session req w = (not_authenticated, w)
  /\ PUT E session req id w = (not_authenticated, w)
  /\ DELETE E session id w = (not_authenticated, w)
  /\ status not_authenticated = 401.
Proof.
  intros Hnone. unfold POST, PUT, DELETE. rewrite Hnone.
  repeat split.
Qed.

(** A session whose user has no email, against the sample store. *)
Lemma unauthenticated_requests_change_nothing_witness :
  let anonymous := Some {| user := Some {| email := None |} |} in
  let req := {| json := Some {| text := js "x"; competencyIDs := [1] |} |} in
  POST steady anonymous req sample = (not_authenticated, sample)
  /\ PUT steady anonymous req 7 sample = (not_authenticated, sample)
  /\ DELETE steady anonymous 7 sample = (not_authenticated, sample)
  /\ status not_authenticated = 401.
Proof.
  exact (unauthenticated_requests_change_nothing steady
           (Some {| user := Some {| email := None |} |})
           {| json := Some {| text := js "x"; competencyIDs := [1] |} |}
           7 sample eq_refl).
Defined.

(** C4. A DELETE /api/entry/{id} by an authenticated caller that answers 200
    has sent exactly two statements, first the delete of the association
    rows of the entry, then the delete of the Entry row filtered by id and
    owner, and the caller did own the entry.  Afterwards no association row
    of the entry remains, no row of that id and owner remains, and the entry
    is in no listing (the caller's, and with unique ids anybody's).  With a
    database that accepts the statements the owner's call does answer 200,
    and a zero affected-row count on the Entry delete gives the not-found
    response. *)
Theorem delete_removes_entry_and_associations
  (E : Engine) (session : option Session) (id : Z) (caller : JsString)
  (w w' : World) (r : Response) :
  session_email session = Some caller ->
  DELETE E session id w = (r, w') ->
  (status r = 200 ->
     (exists row, In row (Entry (store w)) /\ e_id row = id /\ e_user row = caller)
     /\ executed w' = executed w ++ [DeleteAssociations id; DeleteEntry id caller]
     /\ EntryCompetency (store w')
        = filter (fun a => negb (of_entry id a)) (EntryCompetency (store w))
     /\ Entry (store w')
        = filter (fun row => negb (owned id caller row)) (Entry (store w))
     /\ (forall a, In a (EntryCompetency (store w')) -> entryID a <> id)
     /\ (forall row, In row (Entry (store w')) -> e_id row = id -> e_user row <> caller)
     /\ (forall j, In j (listing (store w') caller) -> j_id j <> id)
     /\ (NoDup (map e_id (Entry (store w))) ->
         forall u j, In j (listing (store w') u) -> j_id j <> id))
  /\ (reliable E ->
      (exists row, In row (Entry (store w)) /\ e_id row = id /\ e_user row = caller) ->
      r = deleted /\ status r = 200)
  /\ (reliable E ->
      count (owned id caller) (Entry (store w)) = 0 ->
      r = not_found /\ status r = 404).
Proof.
  intros Hauth Hrun. rewrite (DELETE_run E session id caller Hauth w) in Hrun.
  split; [|split].
  - destruct (db_error E (DeleteAssociations id) (store w)).
    { inversion Hrun; subst; simpl; discriminate. }
    cbv zeta in Hrun.
    destruct (db_error E (DeleteEntry id caller) _).
    { inversion Hrun; subst; simpl; discriminate. }
    destruct (count (owned id caller) (Entry (store w)) =? 0) eqn:Hn.
    { inversion Hrun; subst; simpl; discriminate. }
    inversion Hrun; subst r w'; clear Hrun. intros _.
    cbn [store executed run fst Entry EntryCompetency].
    assert (Hgone : forall row,
              In row (filter (fun row => negb (owned id caller row)) (Entry (store w))) ->
              e_id row = id -> e_user row <> caller).
    { intros row Hin Hid Hu. apply filter_In in Hin. destruct Hin as [_ Hno].
      assert (owned id caller row = true) by (apply owned_true; auto).
      rewrite H in Hno; discriminate. }
    apply count_pos in Hn. destruct Hn as [mine [Hmine Hown]].
    pose proof Hown as Hown'. apply owned_true in Hown'. destruct Hown' as [Hmid Hmu].
    repeat split.
    + exists mine; auto.
    + rewrite <- app_assoc. reflexivity.
    + intros a Ha Hid. apply filter_In in Ha. destruct Ha as [_ Ha].
      unfold of_entry in Ha. apply Z.eqb_eq in Hid. rewrite Hid in Ha. discriminate.
    + exact Hgone.
    + intros j Hj Hid. apply in_listing in Hj. cbn [Entry] in Hj.
      destruct Hj as [row [Hin [Hu Hjid]]].
      apply (Hgone row Hin); congruence.
    + intros Hnd u j Hj Hid. apply in_listing in Hj. cbn [Entry] in Hj.
      destruct Hj as [row [Hin [Hu Hjid]]].
      pose proof Hin as Hin'. apply filter_In in Hin'. destruct Hin' as [Hin' Hno].
      assert (row = mine) by (apply (unique_id_row (Entry (store w))); auto; congruence).
      subst row. rewrite Hown in Hno. discriminate.
  - intros HE [row [Hin [Hid Hu]]]. rewrite HE in Hrun. cbv zeta in Hrun.
    rewrite HE in Hrun.
    assert (Hn : (count (owned id caller) (Entry (store w)) =? 0) = false).
    { apply count_pos. exists row. split; [assumption | apply owned_true; auto]. }
    rewrite Hn in Hrun. inversion Hrun; subst. split; reflexivity.
  - intros HE H0. rewrite HE in Hrun. cbv zeta in Hrun. rewrite HE in Hrun.
    rewrite H0 in Hrun. inversion Hrun; subst. split; reflexivity.
Qed.

(** Ann deletes her entry 7. *)
Lemma delete_removes_entry_and_associations_witness :
  status (fst (DELETE steady (signed_in ann) 7 sample)) = 200
  /\ executed (snd (DELETE steady (signed_in ann) 7 sample))
     = [DeleteAssociations 7; DeleteEntry 7 ann]
  /\ EntryCompetency (store (snd (DELETE steady (signed_in ann) 7 sample)))
     = [association 8 1].
Proof.
  destruct (delete_removes_entry_and_associations steady (signed_in ann) 7 ann
              sample _ _ eq_refl (surjective_pairing _)) as (Hok & _ & _).
  assert (H200 : status (fst (DELETE steady (signed_in ann) 7 sample)) = 200)
    by (vm_compute; reflexivity).
  destruct (Hok H200) as (_ & Hx & Ha & _).
  split; [exact H200 | split; [exact Hx | exact Ha]].
Defined.

End RouteClaims.

(* ================================================================= *)
(** ** Properties of the views *)

Section ViewFacts.
Import Types.

Lemma strict_eq_true (a b : option Z) : strict_eq a b = true <-> a = b.
Proof.
  destruct a as [x|], b as [y|]; simpl; try (split; [discriminate|discriminate]).
  - rewrite Z.eqb_eq. split; [intros ->; reflexivity | intros H; inversion H; reflexivity].
  - tauto.
Qed.

Lemma strict_eq_false (a b : option Z) : strict_eq a b = false <-> a <> b.
Proof.
  rewrite <- strict_eq_true. destruct (strict_eq a b); split; congruence.
Qed.

Lemma option_Z_eq_dec (a b : option Z) : {a = b} + {a <> b}.
Proof. decide equality. apply Z.eq_dec. Qed.

Lemma not_null_true (c : option Z) : not_null c = true <-> c <> None.
Proof. destruct c; simpl; split; congruence. Qed.

(** What the filtering keeps: the numbers of the array, and no null. *)
Lemma filtered_or_empty_no_null (a : CompetenciesField) :
  ~ In None (filtered_or_empty a).
Proof.
  destruct a as [| |items]; simpl; try tauto.
  intros H. apply filter_In in H. destruct H as [_ H]. discriminate.
Qed.

Lemma filtered_or_empty_numbers (a : CompetenciesField) (n : Z) :
  In (Some n) (filtered_or_empty a)
  <-> exists items, a = array items /\ In (Some n) items.
Proof.
  destruct a as [| |items]; simpl.
  - split; [tauto | intros [items [H _]]; discriminate].
  - split; [tauto | intros [items [H _]]; discriminate].
  - rewrite filter_In. split.
    + intros [H _]. exists items; auto.
    + intros [items' [H Hin]]. inversion H; subst. auto.
Qed.

End ViewFacts.

Section ToggleFacts.
Import Types DailyThought.

Lemma includes_In (prev : list (option Z)) (id : Z) :
  includes prev id = true <-> In (Some id) prev.
Proof.
  unfold includes. rewrite existsb_exists. split.
  - intros [c [Hin Hc]]. apply strict_eq_true in Hc. subst; assumption.
  - intros H. exists (Some id). split; [assumption | apply strict_eq_true; reflexivity].
Qed.

Lemma includes_not_In (prev : list (option Z)) (id : Z) :
  includes prev id = false <-> ~ In (Some id) prev.
Proof.
  rewrite <- includes_In. destruct (includes prev id); split; congruence.
Qed.

(** Membership after a toggle, for any list. *)
Lemma in_toggle (id : Z) (prev : list (option Z)) (c : option Z) :
  In c (toggle id prev)
  <-> (c <> Some id /\ In c prev) \/ (c = Some id /\ ~ In (Some id) prev).
Proof.
  unfold toggle. destruct (includes prev id) eqn:Hinc.
  - apply includes_In in Hinc. rewrite filter_In, negb_true_iff, strict_eq_false.
    tauto.
  - apply includes_not_In in Hinc. rewrite in_app_iff. simpl.
    destruct (option_Z_eq_dec c (Some id)) as [->|Hne].
    + tauto.
    + split.
      * intros [H|[H|[]]]; [auto | congruence].
      * intros [[_ H]|[H _]]; [auto | contradiction].
Qed.

Lemma NoDup_snoc {A} (l : list A) (x : A) :
  NoDup l -> ~ In x l -> NoDup (l ++ [x]).
Proof.
  induction l as [|a l IH]; simpl; intros Hnd Hx.
  - constructor; [intros [] | constructor].
  - inversion Hnd as [|? ? Ha Hnd']; subst. constructor.
    + rewrite in_app_iff. simpl. intros [H|[H|[]]]; [auto | subst; auto].
    + apply IH; auto.
Qed.

Lemma toggle_NoDup (id : Z) (prev : list (option Z)) :
  NoDup prev -> NoDup (toggle id prev).
Proof.
  intros Hnd. unfold toggle. destruct (includes prev id) eqn:Hinc.
  - apply NoDup_filter; assumption.
  - apply NoDup_snoc; [assumption | apply includes_not_In; assumption].
Qed.

End ToggleFacts.

Section TrimFacts.

Lemma trimStart_nil (s : JsString) :
  trimStart s = [] <-> forallb isWhiteSpace s = true.
Proof.
  induction s as [|c s IH]; simpl; [tauto|].
  destruct (isWhiteSpace c); simpl; [exact IH | split; discriminate].
Qed.

Lemma forallb_rev {A} (p : A -> bool) (l : list A) :
  forallb p (rev l) = forallb p l.
Proof.
  induction l as [|a l IH]; simpl; [reflexivity|].
  rewrite forallb_app, IH. simpl. rewrite andb_true_r. apply andb_comm.
Qed.

(** What [trimStart] leaves is empty or starts with a character that is
    not white space. *)
Lemma trimStart_head (s : JsString) :
  match trimStart s with
  | [] => True
  | c :: _ => isWhiteSpace c = false
  end.
Proof.
  induction s as [|c s IH]; simpl; [exact I|].
  destruct (isWhiteSpace c) eqn:Hc; [exact IH | exact Hc].
Qed.

(** The trimmed form is empty exactly for the empty and the white-space-only
    strings. *)
Lemma trim_nil (s : JsString) :
  trim s = [] <-> forallb isWhiteSpace s = true.
Proof.
  unfold trim, trimEnd. split.
  - intros H. apply (f_equal (@rev N)) in H. rewrite rev_involutive in H.
    simpl in H. apply trimStart_nil in H. rewrite forallb_rev in H.
    pose proof (trimStart_head s) as Hhead.
    destruct (trimStart s) as [|c t] eqn:Ht.
    + apply trimStart_nil; assumption.
    + simpl in H. rewrite Hhead in H. discriminate.
  - intros H. apply trimStart_nil in H. rewrite H. reflexivity.
Qed.

End TrimFacts.

Section CreateFacts.
Import Route Outcome.

(** The create route, given a session, a parsed body and a database that
    accepts every statement, answers 200 and has stored a row with the
    text as it was sent. *)
Lemma POST_succeeds E session req userEmail b w :
  session_email session = Some userEmail ->
  json req = Some b ->
  reliable E ->
  status (fst (POST E session req w)) = 200
  /\ Entry (store (snd (POST E session req w)))
     = Entry (store w)
       ++ [{| e_id := auto_increment E (store w); e_text := text b;
              e_createdAt := current_timestamp E (store w);
              e_user := userEmail |}].
Proof.
  intros Hauth Hbody HE.
  assert (Hrun : exists r w',
            POST E session req w = (r, w') /\ status r = 200
            /\ Entry (store w')
               = Entry (store w)
                 ++ [{| e_id := auto_increment E (store w); e_text := text b;
                        e_createdAt := current_timestamp E (store w);
                        e_user := userEmail |}]).
  { unfold POST, req_json. rewrite Hauth, Hbody.
    unfold try_catch. rewrite bind_ret. unfold bind at 1.
    rewrite bind_execute, HE. cbn [run snd fst insertId].
    unfold bind at 1.
    match goal with
    | |- context [for_of _ _ ?w0] =>
        destruct (for_of_inserts_reliable E (auto_increment E (store w))
                    (competencyIDs b) HE w0) as [w3 Hw3];
        change (for_of (competencyIDs b) _ w0)
          with (for_of (competencyIDs b)
                  (insert_one E (auto_increment E (store w))) w0)
    end.
    rewrite Hw3. apply for_of_inserts in Hw3. destruct Hw3 as (He & _ & _).
    eexists; eexists. split; [reflexivity|]. split; [reflexivity|].
    rewrite He. reflexivity. }
  destruct Hrun as (r & w' & Hrun & Hst & Hrows). rewrite Hrun. simpl. auto.
Qed.

End CreateFacts.

(* ================================================================= *)
(** ** The claims about the views *)

Section ViewClaims.
Import Types Scenario.

(** C5. Every row received from GET /api/entry becomes, in the widget and
    in the history page alike, a thought whose competencies hold no null:
    the numbers of the row's array are kept, in order, its nulls are dropped,
    and a null or missing competencies property gives the empty list.  After
    a load that succeeded the thoughts of the view are these, one per row. *)
Theorem loaded_thoughts_hold_no_null
  (toLocaleString : JsString -> JsString) (rows : list EntryFromDB)
  (row : EntryFromDB)
  (widget : DailyThought.State) (page : ThoughtsPage.State) :
  let res := {| list_ok := true; list_json := rows |} in
  let t := DailyThought.formatRow toLocaleString row in
  let t' := ThoughtsPage.formatRow toLocaleString row in
  DailyThought.thoughts (DailyThought.loadThoughts toLocaleString res widget)
  = map (DailyThought.formatRow toLocaleString) rows
  /\ ThoughtsPage.thoughts (ThoughtsPage.loadThoughts toLocaleString res page)
     = map (ThoughtsPage.formatRow toLocaleString) rows
  /\ t' = t
  /\ t_id t = row_id row
  /\ ~ In None (t_competencies t)
  /\ forallb not_null (t_competencies t) = true
  /\ t_competencies t = filter not_null (announced row)
  /\ (forall n, In (Some n) (t_competencies t) <-> In (Some n) (announced row))
  /\ match row_competencies row with
     | absent | null => t_competencies t = []
     | array items => t_competencies t = filter not_null items
     end.
Proof.
  intros res t t'. subst res t t'.
  unfold DailyThought.loadThoughts, ThoughtsPage.loadThoughts,
    DailyThought.formatRow, ThoughtsPage.formatRow, announced.
  cbn [list_ok negb DailyThought.setThoughts ThoughtsPage.setThoughts
       DailyThought.thoughts ThoughtsPage.thoughts t_competencies t_id].
  repeat split.
  - apply filtered_or_empty_no_null.
  - apply forallb_forall. intros c Hc. apply not_null_true. intros ->.
    exact (filtered_or_empty_no_null _ Hc).
  - destruct (row_competencies row); reflexivity.
  - intros H. apply filtered_or_empty_numbers in H.
    destruct H as [items [-> Hin]]. exact Hin.
  - intros H. apply filtered_or_empty_numbers.
    destruct (row_competencies row) as [| |items]; try contradiction.
    exists items; auto.
  - destruct (row_competencies row); reflexivity.
Qed.

(** C7. The widget shows a placeholder paragraph exactly when it holds no
    thought; otherwise it shows one card per thought for the first five
    thoughts at most, card [i] being the card of thought [i]: the order of
    the list is kept and nothing is sorted. *)
Theorem widget_shows_first_five (st : DailyThought.State) :
  match DailyThought.render st with
  | DailyThought.Placeholder p =>
      DailyThought.thoughts st = [] /\ p = js "No thoughts yet. Start typing!"
  | DailyThought.Cards cards =>
      DailyThought.thoughts st <> []
      /\ (length cards <= 5)%nat
      /\ length cards = Nat.min 5 (length (DailyThought.thoughts st))
      /\ map DailyThought.key cards = firstn 5 (map t_id (DailyThought.thoughts st))
      /\ forall i, (i < length cards)%nat ->
           nth_error cards i
           = option_map (DailyThought.renderCard (DailyThought.competencies st))
               (nth_error (DailyThought.thoughts st) i)
  end.
Proof.
  unfold DailyThought.render, slice. cbn [skipn].
  generalize (DailyThought.competencies st) as cs.
  generalize (DailyThought.thoughts st) as l.
  intros [|t ts] cs.
  - simpl. auto.
  - change (length (t :: ts) =? 0)%nat with false. cbv iota.
    set (l := t :: ts).
    assert (Hlen : length (map (DailyThought.renderCard cs) (firstn (5 - 0) l))
                   = Nat.min 5 (length l)).
    { rewrite length_map, length_firstn. reflexivity. }
    split; [discriminate|].
    split; [rewrite Hlen; apply Nat.le_min_l|].
    split; [exact Hlen|].
    split.
    + rewrite map_map. cbn [DailyThought.renderCard DailyThought.key].
      rewrite firstn_map. reflexivity.
    + intros i Hi. rewrite Hlen in Hi.
      rewrite nth_error_map. f_equal.
      rewrite nth_error_firstn.
      assert (Hlt : (i <? 5 - 0)%nat = true) by (apply Nat.ltb_lt; simpl; lia).
      rewrite Hlt. reflexivity.
Qed.

(** C8. On a duplicate-free selection, toggling a competency id flips its
    membership: a present id is removed, an absent one is appended at the
    end; the result is duplicate-free again, the membership of every other
    element is unchanged, and toggling twice gives the original selection up
    to order (the same elements, each once). *)
Theorem toggle_flips_membership (id : Z) (prev : list (option Z)) :
  NoDup prev ->
  DailyThought.includes (DailyThought.toggle id prev) id
  = negb (DailyThought.includes prev id)
  /\ (In (Some id) prev ->
      ~ In (Some id) (DailyThought.toggle id prev)
      /\ DailyThought.toggle id prev
         = filter (fun c => negb (strict_eq c (Some id))) prev)
  /\ (~ In (Some id) prev ->
      In (Some id) (DailyThought.toggle id prev)
      /\ DailyThought.toggle id prev = prev ++ [Some id])
  /\ NoDup (DailyThought.toggle id prev)
  /\ (forall c, c <> Some id ->
        (In c (DailyThought.toggle id prev) <-> In c prev))
  /\ (forall c, In c (DailyThought.toggle id (DailyThought.toggle id prev))
                <-> In c prev)
  /\ Permutation (DailyThought.toggle id (DailyThought.toggle id prev)) prev
  /\ (forall st, DailyThought.selected st = prev ->
        DailyThought.selected (DailyThought.toggleCompetency id st)
        = DailyThought.toggle id prev).
Proof.
  intros Hnd.
  assert (Hothers : forall c, c <> Some id ->
            (In c (DailyThought.toggle id prev) <-> In c prev)).
  { intros c Hc. rewrite in_toggle. tauto. }
  assert (Htwice : forall c,
            In c (DailyThought.toggle id (DailyThought.toggle id prev)) <-> In c prev).
  { intros c. rewrite !in_toggle.
    destruct (option_Z_eq_dec c (Some id)) as [->|Hne];
      destruct (in_dec option_Z_eq_dec (Some id) prev); tauto. }
  split; [|split; [|split; [|split; [|split; [|split; [|split]]]]]].
  - destruct (DailyThought.includes prev id) eqn:Hinc; simpl.
    + apply includes_not_In. rewrite in_toggle.
      apply includes_In in Hinc. tauto.
    + apply includes_In. rewrite in_toggle.
      apply includes_not_In in Hinc. tauto.
  - intros Hin. split.
    + rewrite in_toggle. tauto.
    + unfold DailyThought.toggle.
      apply includes_In in Hin. rewrite Hin. reflexivity.
  - intros Hout. split.
    + rewrite in_toggle. tauto.
    + unfold DailyThought.toggle.
      apply includes_not_In in Hout. rewrite Hout. reflexivity.
  - apply toggle_NoDup; assumption.
  - exact Hothers.
  - exact Htwice.
  - apply NoDup_Permutation; [| assumption | exact Htwice].
    apply toggle_NoDup, toggle_NoDup; assumption.
  - intros st <-. reflexivity.
Qed.

(** Unticking competency 2 of the selection 1, 2, and ticking it again. *)
Lemma toggle_flips_membership_witness :
  DailyThought.toggle 2 [Some 1; Some 2] = [Some 1]
  /\ NoDup (DailyThought.toggle 2 [Some 1; Some 2])
  /\ Permutation (DailyThought.toggle 2 (DailyThought.toggle 2 [Some 1; Some 2]))
       [Some 1; Some 2].
Proof.
  assert (Hnd : NoDup [Some 1; Some 2]).
  { constructor; [simpl; intros [H|[]]; discriminate|].
    constructor; [simpl; tauto | constructor]. }
  destruct (toggle_flips_membership 2 [Some 1; Some 2] Hnd)
    as (_ & Hin & _ & Hnd' & _ & _ & Hperm & _).
  split; [|split; [exact Hnd' | exact Hperm]].
  destruct Hin as [_ Heq]; [simpl; auto|]. rewrite Heq. reflexivity.
Defined.

End ViewClaims.

(* ================================================================= *)
(** ** The claim about both sides: the blank-text check *)

Section SaveClaims.
Import Route Outcome Types Scenario.

(** C6. When the trimmed input is empty, that is when the input is empty or
    white space only, [handleSave] returns at once: no request is sent, no
    alert is shown and the state of the component (thoughts, input,
    selected, editingId) is the state it was called in.  The check is the
    client's alone: the update route stores such a text for the owner of the
    entry and answers 200, and so does the create route for any signed-in
    caller. *)
Theorem blank_input_is_rejected_client_side
  (toLocaleString : JsString -> JsString)
  (fetch : DailyThought.FetchRequest -> DailyThought.FetchResponse)
  (st : DailyThought.State) :
  trim (DailyThought.input st) = [] ->
  forallb isWhiteSpace (DailyThought.input st) = true
  /\ DailyThought.handleSave toLocaleString fetch st = (st, [])
  /\ (forall E session caller req b id w,
        session_email session = Some caller ->
        json req = Some b ->
        text b = DailyThought.input st ->
        reliable E ->
        (exists row, In row (Entry (store w))
                     /\ e_id row = id /\ e_user row = caller) ->
        status (fst (PUT E session req id w)) = 200
        /\ exists row, In row (Entry (store (snd (PUT E session req id w))))
                       /\ e_id row = id /\ e_user row = caller
                       /\ e_text row = DailyThought.input st)
  /\ (forall E session caller req b w,
        session_email session = Some caller ->
        json req = Some b ->
        text b = DailyThought.input st ->
        reliable E ->
        status (fst (POST E session req w)) = 200
        /\ exists row, In row (Entry (store (snd (POST E session req w))))
                       /\ e_user row = caller
                       /\ e_text row = DailyThought.input st).
Proof.
  intros Hblank.
  split; [apply trim_nil; exact Hblank|].
  split; [unfold DailyThought.handleSave; rewrite Hblank; reflexivity|].
  split.
  - intros E session caller req b id w Hauth Hbody Htext HE [row [Hin [Hid Hu]]].
    assert (Hown : owned id caller row = true) by (apply owned_true; auto).
    pose proof (PUT_succeeds E session req id caller b Hauth Hbody w HE
                  (ex_intro _ row (conj Hin Hown))) as Hok.
    split; [rewrite Hok; reflexivity|].
    destruct (PUT_ok_inv E session req id caller b Hauth Hbody w
                (fst (PUT E session req id w)) (snd (PUT E session req id w))
                (surjective_pairing _)) as (_ & HE' & _).
    { rewrite Hok; reflexivity. }
    exists (set_text (text b) row). split.
    + rewrite HE'. apply in_map_iff. exists row. rewrite Hown. auto.
    + simpl. auto.
  - intros E session caller req b w Hauth Hbody Htext HE.
    destruct (POST_succeeds E session req caller b w Hauth Hbody HE) as [Hok Hrows].
    split; [exact Hok|].
    eexists. split.
    + rewrite Hrows. apply in_app_iff. right. left. reflexivity.
    + simpl. auto.
Qed.

(** The draft holds a text of white space only while thought 7 is edited;
    the same text sent by ann for her entry 7 is stored. *)
Lemma blank_input_is_rejected_client_side_witness :
  DailyThought.handleSave verbatim refusing draft = (draft, [])
  /\ status (fst (PUT steady (signed_in ann)
                    {| json := Some {| text := blank; competencyIDs := [1] |} |}
                    7 sample)) = 200.
Proof.
  destruct (blank_input_is_rejected_client_side verbatim refusing draft eq_refl)
    as (_ & Hsave & Hput & _).
  split; [exact Hsave|].
  apply (Hput steady (signed_in ann) ann
           {| json := Some {| text := blank; competencyIDs := [1] |} |}
           {| text := blank; competencyIDs := [1] |} 7 sample
           eq_refl eq_refl eq_refl).
  - intros q s0; reflexivity.
  - eexists. split; [left; reflexivity | split; reflexivity].
Defined.

End SaveClaims.

(* ================================================================= *)
(** ** Further properties of the routes *)

Section LoopOutcomes.
Import Route Outcome.

(** However the loop of inserts ends, it has added the rows of a prefix of
    the ids and touched nothing else; it ends normally exactly when the
    prefix is the whole list. *)
Lemma for_of_inserts_any E entryId ids :
  forall w c w',
    for_of ids (insert_one E entryId) w = (c, w') ->
    exists k,
      (k <= length ids)%nat
      /\ Entry (store w') = Entry (store w)
      /\ EntryCompetency (store w')
         = EntryCompetency (store w) ++ map (association entryId) (firstn k ids)
      /\ (c = Normal tt -> k = length ids)
      /\ (c = Throw -> (k < length ids)%nat).
Proof.
  induction ids as [|x ids IH]; intros w c w' H.
  - inversion H; subst. exists 0%nat. simpl. rewrite app_nil_r.
    repeat split; auto. discriminate.
  - rewrite for_of_cons, bind_execute in H.
    destruct (db_error E (InsertAssociation entryId x) (store w)).
    + inversion H; subst. exists 0%nat. simpl. rewrite app_nil_r.
      repeat split; auto; try lia. discriminate.
    + apply IH in H. destruct H as (k & Hk & He & Ha & Hn & Ht).
      exists (S k). cbn [store run fst Entry EntryCompetency] in He, Ha.
      rewrite He, Ha, <- app_assoc. simpl.
      split; [lia|]. split; [reflexivity|]. split; [reflexivity|]. split.
      * intros Hc. rewrite (Hn Hc). reflexivity.
      * intros Hc. specialize (Ht Hc). lia.
Qed.

Lemma map_unowned (f : EntryRow -> EntryRow) entryId userEmail (l : list EntryRow) :
  (forall row, In row l -> owned entryId userEmail row = false) ->
  map (fun row => if owned entryId userEmail row then f row else row) l = l.
Proof.
  induction l as [|a l IH]; simpl; intros H; [reflexivity|].
  rewrite (H a (or_introl eq_refl)), IH; auto.
Qed.

Lemma store_eta (s : Store) :
  {| Entry := Entry s; EntryCompetency := EntryCompetency s |} = s.
Proof. destruct s; reflexivity. Qed.

End LoopOutcomes.

Section PutOutcomes.
Import Route Outcome.

Variable E : Engine.
Variables (session : option Session) (req : Request) (id : Z).
Variables (userEmail : JsString) (b : Body).
Hypothesis Hauth : session_email session = Some userEmail.
Hypothesis Hbody : json req = Some b.

(** Every way a call past the guard and the parsing can end. *)
Lemma PUT_outcome w r w' :
  PUT E session req id w = (r, w') ->
  (r = failed /\ store w' = store w
   /\ db_error E (UpdateText (text b) id userEmail) (store w) = true)
  \/ (r = not_found /\ store w' = store w
      /\ forall row, In row (Entry (store w)) -> owned id userEmail row = false)
  \/ (r = failed
      /\ db_error E (UpdateText (text b) id userEmail) (store w) = false
      /\ store w'
         = {| Entry :=
                map (fun row => if owned id userEmail row
                                then set_text (text b) row else row)
                    (Entry (store w));
              EntryCompetency := EntryCompetency (store w) |})
  \/ (exists k,
        (k <= length (competencyIDs b))%nat
        /\ db_error E (UpdateText (text b) id userEmail) (store w) = false
        /\ store w'
           = {| Entry :=
                  map (fun row => if owned id userEmail row
                                  then set_text (text b) row else row)
                      (Entry (store w));
                EntryCompetency :=
                  filter (fun a => negb (of_entry id a)) (EntryCompetency (store w))
                  ++ map (association id) (firstn k (competencyIDs b)) |}
        /\ ((r = updated /\ k = length (competencyIDs b))
            \/ (r = failed /\ (k < length (competencyIDs b))%nat))).
Proof.
  rewrite (PUT_authenticated E session req id userEmail b Hauth Hbody).
  unfold try_catch. rewrite bind_execute.
  destruct (db_error E _ (store w)) eqn:Hupd.
  { intros H; inversion H; subst. left. auto. }
  cbn [run snd fst affectedRows].
  destruct (count (owned id userEmail) (Entry (store w)) =? 0) eqn:Hn.
  { intros H; inversion H; subst. right; left.
    apply Z.eqb_eq in Hn. rewrite count_zero in Hn.
    split; [reflexivity|]. split; [|exact Hn].
    cbn [store]. rewrite map_unowned by exact Hn. apply store_eta. }
  rewrite bind_execute. cbn [store executed].
  destruct (db_error E (DeleteAssociations id) _).
  { intros H; inversion H; subst. right; right; left. auto. }
  cbn [run snd fst]. unfold bind at 1.
  destruct (for_of (competencyIDs b) (insert_one E id) _) as [c w3] eqn:Hloop.
  apply for_of_inserts_any in Hloop.
  destruct Hloop as (k & Hk & He & Ha & Hnormal & Hthrow).
  cbn [store Entry EntryCompetency] in He, Ha.
  intros H. right; right; right. exists k.
  split; [exact Hk|]. split; [reflexivity|].
  assert (Hstore : store w3
            = {| Entry :=
                   map (fun row => if owned id userEmail row
                                   then set_text (text b) row else row)
                       (Entry (store w));
                 EntryCompetency :=
                   filter (fun a => negb (of_entry id a)) (EntryCompetency (store w))
                   ++ map (association id) (firstn k (competencyIDs b)) |}).
  { rewrite <- He, <- Ha. symmetry. apply store_eta. }
  destruct c as [[]|]; inversion H; subst r w'; (split; [exact Hstore|]).
  - left. split; [reflexivity | apply Hnormal; reflexivity].
  - right. split; [reflexivity | apply Hthrow; reflexivity].
Qed.

End PutOutcomes.

Section TableFacts.
Import Route Outcome.

Lemma owned_set_text entryId userEmail t row :
  owned entryId userEmail (set_text t row) = owned entryId userEmail row.
Proof. reflexivity. Qed.

(** What the update does to the Entry table, seen column by column. *)
Lemma update_columns entryId userEmail t (l : list EntryRow) :
  let l' := map (fun row => if owned entryId userEmail row
                            then set_text t row else row) l in
  map e_id l' = map e_id l
  /\ map e_user l' = map e_user l
  /\ map e_createdAt l' = map e_createdAt l
  /\ filter (fun row => negb (owned entryId userEmail row)) l'
     = filter (fun row => negb (owned entryId userEmail row)) l
  /\ filter (fun row => negb (e_id row =? entryId)) l'
     = filter (fun row => negb (e_id row =? entryId)) l
  /\ count (owned entryId userEmail) l' = count (owned entryId userEmail) l.
Proof.
  unfold count. induction l as [|a l IH]; simpl; [repeat split; reflexivity|].
  destruct IH as (H1 & H2 & H3 & H4 & H5 & H6).
  destruct (owned entryId userEmail a) eqn:Ho.
  - rewrite owned_set_text, Ho. simpl.
    pose proof Ho as Ho'. unfold owned in Ho'. apply andb_true_iff in Ho'.
    destruct Ho' as [Hid _]. rewrite Hid. simpl.
    rewrite H1, H2, H3, H4, H5. repeat split; try reflexivity.
    apply Nat2Z.inj in H6. rewrite H6. reflexivity.
  - rewrite Ho. simpl. rewrite H1, H2, H3, H4, H5.
    repeat split; try reflexivity; try exact H6.
Qed.

Lemma update_idempotent entryId userEmail t (l : list EntryRow) :
  let upd := fun row => if owned entryId userEmail row then set_text t row else row in
  map upd (map upd l) = map upd l.
Proof.
  simpl. rewrite map_map. apply map_ext. intros row.
  destruct (owned entryId userEmail row) eqn:Ho.
  - rewrite owned_set_text, Ho. reflexivity.
  - rewrite Ho. reflexivity.
Qed.

Lemma filter_prefix_others entryId k ids (l : list EntryCompetencyRow) :
  filter (fun a => negb (of_entry entryId a))
    (filter (fun a => negb (of_entry entryId a)) l
     ++ map (association entryId) (firstn k ids))
  = filter (fun a => negb (of_entry entryId a)) l.
Proof. apply rows_of_others_kept. Qed.

End TableFacts.

Section ReliableRuns.
Import Route Outcome.

Variable E : Engine.
Hypothesis HE : reliable E.
Variables (session : option Session) (id : Z) (userEmail : JsString).
Hypothesis Hauth : session_email session = Some userEmail.

(** With a database that accepts every statement the answer and the store
    after a PUT are a function of the store before. *)
Lemma PUT_reliable req b w :
  json req = Some b ->
  exists x,
    PUT E session req id w
    = (if count (owned id userEmail) (Entry (store w)) =? 0
       then not_found else updated,
       {| store :=
            if count (owned id userEmail) (Entry (store w)) =? 0
            then store w
            else
              {| Entry :=
                   map (fun row => if owned id userEmail row
                                   then set_text (text b) row else row)
                       (Entry (store w));
                 EntryCompetency :=
                   filter (fun a => negb (of_entry id a)) (EntryCompetency (store w))
                   ++ map (association id) (competencyIDs b) |};
          executed := x |}).
Proof.
  intros Hbody.
  rewrite (PUT_authenticated E session req id userEmail b Hauth Hbody).
  unfold try_catch. rewrite bind_execute, HE. cbn [run snd fst affectedRows].
  destruct (count (owned id userEmail) (Entry (store w)) =? 0) eqn:Hn.
  - eexists. cbn [ret]. f_equal. f_equal.
    apply Z.eqb_eq in Hn. rewrite count_zero in Hn.
    rewrite map_unowned by exact Hn. apply store_eta.
  - rewrite bind_execute, HE. cbn [run snd fst store executed]. unfold bind at 1.
    match goal with
    | |- context [for_of _ _ ?w0] =>
        destruct (for_of_inserts_reliable E id (competencyIDs b) HE w0) as [w3 Hw3]
    end.
    rewrite Hw3. apply for_of_inserts in Hw3.
    cbn [store executed Entry EntryCompetency] in Hw3.
    destruct Hw3 as (He & Ha & Hx).
    exists (executed w3). cbn [ret]. f_equal.
    destruct w3 as [[e3 a3] x3]. cbn in *. subst. reflexivity.
Qed.

(** Likewise for DELETE. *)
Lemma DELETE_reliable w :
  DELETE E session id w
  = (if count (owned id userEmail) (Entry (store w)) =? 0
     then not_found else deleted,
     {| store :=
          {| Entry := filter (fun row => negb (owned id userEmail row)) (Entry (store w));
             EntryCompetency :=
               filter (fun a => negb (of_entry id a)) (EntryCompetency (store w)) |};
        executed := executed w ++ [DeleteAssociations id; DeleteEntry id userEmail] |}).
Proof.
  rewrite (DELETE_run E session id userEmail Hauth), HE. cbv zeta. rewrite HE.
  cbn [run fst Entry EntryCompetency]. rewrite <- app_assoc. reflexivity.
Qed.

End ReliableRuns.

Section RouteExtras.
Import Route Outcome Fixtures.

(** X1. DELETE removes the association rows before it looks at the owner:
    when the caller owns no row of the id and the database accepts the
    first statement, the answer is not 200 (it is 404, or 500 if the second
    statement is rejected), the Entry table is as it was, and every
    association row of that id is gone, whoever owns the entry. *)
Theorem delete_by_stranger_clears_associations
  (E : Engine) (session : option Session) (id : Z) (caller : JsString) (w : World) :
  session_email session = Some caller ->
  db_error E (DeleteAssociations id) (store w) = false ->
  (forall row, In row (Entry (store w)) -> e_id row = id -> e_user row <> caller) ->
  let r := fst (DELETE E session id w) in
  let w' := snd (DELETE E session id w) in
  (r = not_found \/ r = failed)
  /\ Entry (store w') = Entry (store w)
  /\ EntryCompetency (store w')
     = filter (fun a => negb (of_entry id a)) (EntryCompetency (store w))
  /\ (forall a, In a (EntryCompetency (store w')) -> entryID a <> id).
Proof.
  intros Hauth Hfirst Hforeign r w'. subst r w'.
  assert (Hnone : forall row, In row (Entry (store w)) -> owned id caller row = false).
  { intros row Hin. destruct (owned id caller row) eqn:Ho; [|reflexivity].
    apply owned_true in Ho. destruct Ho as [Hid Hu].
    exfalso; exact (Hforeign row Hin Hid Hu). }
  rewrite (DELETE_run E session id caller Hauth w), Hfirst. cbv zeta.
  assert (Hgone : forall a,
            In a (filter (fun a => negb (of_entry id a)) (EntryCompetency (store w))) ->
            entryID a <> id).
  { intros a Ha Hid. apply filter_In in Ha. destruct Ha as [_ Ha].
    unfold of_entry in Ha. apply Z.eqb_eq in Hid. rewrite Hid in Ha. discriminate. }
  destruct (db_error E (DeleteEntry id caller) _).
  - cbn [fst snd store run Entry EntryCompetency]. auto.
  - pose proof Hnone as H0. apply count_zero in H0. rewrite H0.
    cbn [fst snd store run Entry EntryCompetency Z.eqb].
    split; [auto|]. split; [|split; [reflexivity | exact Hgone]].
    apply filter_all. intros row Hin. rewrite (Hnone row Hin). reflexivity.
Qed.

(** Ann's DELETE of bob's entry 8 strips it of its competency. *)
Lemma delete_by_stranger_clears_associations_witness :
  fst (DELETE steady (signed_in ann) 8 sample) = not_found
  /\ Entry (store (snd (DELETE steady (signed_in ann) 8 sample))) = Entry sample_store
  /\ EntryCompetency (store (snd (DELETE steady (signed_in ann) 8 sample)))
     = [association 7 1; association 7 2].
Proof.
  assert (Hforeign : forall row, In row (Entry (store sample)) ->
                       e_id row = 8 -> e_user row <> ann).
  { simpl. intros row [<-|[<-|[]]] Hid; simpl in *; [lia | discriminate]. }
  destruct (delete_by_stranger_clears_associations steady (signed_in ann) 8 ann
              sample eq_refl eq_refl Hforeign) as (_ & He & Ha & _).
  split; [reflexivity|]. split; [exact He | exact Ha].
Defined.

(** X2. A PUT that is answered 401 or 404 has changed nothing in the store
    (unlike a DELETE answered 404). *)
Theorem put_refused_changes_nothing
  (E : Engine) (session : option Session) (req : Request) (id : Z)
  (w w' : World) (r : Response) :
  PUT E session req id w = (r, w') ->
  status r = 401 \/ status r = 404 ->
  store w' = store w.
Proof.
  intros Hrun Hst.
  destruct (session_email session) as [caller|] eqn:Hauth.
  - destruct (json req) as [b|] eqn:Hbody.
    + destruct (PUT_outcome E session req id caller b Hauth Hbody w r w' Hrun)
        as [(_ & Hs & _)|[(_ & Hs & _)|[(-> & _)|(k & _ & _ & _ & [[-> _]|[-> _]])]]];
        try exact Hs; destruct Hst; discriminate.
    + rewrite (PUT_unparsed E session req id caller w Hauth Hbody) in Hrun.
      inversion Hrun; reflexivity.
  - unfold PUT in Hrun. rewrite Hauth in Hrun. inversion Hrun; reflexivity.
Qed.

(** Ann's PUT on bob's entry 8. *)
Lemma put_refused_changes_nothing_witness :
  store (snd (PUT steady (signed_in ann) (sending retag) 8 sample)) = sample_store.
Proof.
  refine (put_refused_changes_nothing steady (signed_in ann) (sending retag) 8
            sample _ _ (surjective_pairing _) _).
  right. vm_compute. reflexivity.
Defined.

(** X3. PUT and DELETE answer with one of four responses each, whatever the
    database does; the answer is 401 exactly when the session carries no
    non-empty email, so a signed-in caller is never told 401. *)
Theorem handler_answers_classified
  (E : Engine) (session : option Session) (req : Request) (id : Z) (w : World) :
  let p := fst (PUT E session req id w) in
  let d := fst (DELETE E session id w) in
  (p = not_authenticated \/ p = not_found \/ p = failed \/ p = updated)
  /\ (d = not_authenticated \/ d = not_found \/ d = failed \/ d = deleted)
  /\ (status p = 401 <-> session_email session = None)
  /\ (status d = 401 <-> session_email session = None).
Proof.
  intros p d.
  assert (Hp : (session_email session = None /\ p = not_authenticated)
               \/ (session_email session <> None
                   /\ (p = not_found \/ p = failed \/ p = updated))).
  { subst p. destruct (session_email session) as [caller|] eqn:Hauth.
    - right. split; [discriminate|].
      destruct (json req) as [b|] eqn:Hbody.
      + destruct (PUT_outcome E session req id caller b Hauth Hbody w _ _
                    (surjective_pairing _))
          as [(-> & _)|[(-> & _)|[(-> & _)|(k & _ & _ & _ & [[-> _]|[-> _]])]]];
          auto.
      + rewrite (PUT_unparsed E session req id caller w Hauth Hbody). auto.
    - left. split; [reflexivity|]. unfold PUT. rewrite Hauth. reflexivity. }
  assert (Hd : (session_email session = None /\ d = not_authenticated)
               \/ (session_email session <> None
                   /\ (d = not_found \/ d = failed \/ d = deleted))).
  { subst d. destruct (session_email session) as [caller|] eqn:Hauth.
    - right. split; [discriminate|].
      rewrite (DELETE_run E session id caller Hauth w).
      destruct (db_error E (DeleteAssociations id) (store w)); [auto|].
      cbv zeta. destruct (db_error E (DeleteEntry id caller) _); [auto|].
      destruct (count (owned id caller) (Entry (store w)) =? 0); auto.
    - left. split; [reflexivity|]. unfold DELETE. rewrite Hauth. reflexivity. }
  split; [|split; [|split]].
  - destruct Hp as [[_ ->]|[_ [->|[->| ->]]]]; auto.
  - destruct Hd as [[_ ->]|[_ [->|[->| ->]]]]; auto.
  - destruct Hp as [[Hn ->]|[Hn [->|[->| ->]]]]; split; intros H;
      try reflexivity; try assumption; try discriminate; contradiction.
  - destruct Hd as [[Hn ->]|[Hn [->|[->| ->]]]]; split; intros H;
      try reflexivity; try assumption; try discriminate; contradiction.
Qed.

(** X4. Whatever its answer, a PUT keeps the Entry table's rows in place:
    the ids, the owners and the creation times are column for column what
    they were (so no row is added, removed or moved, and no entry changes
    hands), and the rows of every other id are untouched. *)
Theorem put_keeps_rows_in_place
  (E : Engine) (session : option Session) (req : Request) (id : Z) (w : World) :
  let before := Entry (store w) in
  let after := Entry (store (snd (PUT E session req id w))) in
  map e_id after = map e_id before
  /\ map e_user after = map e_user before
  /\ map e_createdAt after = map e_createdAt before
  /\ filter (fun row => negb (e_id row =? id)) after
     = filter (fun row => negb (e_id row =? id)) before.
Proof.
  intros before after. subst before after.
  assert (H : Entry (store (snd (PUT E session req id w))) = Entry (store w)
              \/ exists caller t,
                   Entry (store (snd (PUT E session req id w)))
                   = map (fun row => if owned id caller row
                                     then set_text t row else row)
                         (Entry (store w))).
  { destruct (session_email session) as [caller|] eqn:Hauth.
    - destruct (json req) as [b|] eqn:Hbody.
      + destruct (PUT_outcome E session req id caller b Hauth Hbody w _ _
                    (surjective_pairing _))
          as [(_ & -> & _)|[(_ & -> & _)|[(_ & _ & ->)|(k & _ & _ & -> & _)]]];
          cbn [Entry]; eauto.
      + rewrite (PUT_unparsed E session req id caller w Hauth Hbody). auto.
    - unfold PUT. rewrite Hauth. auto. }
  destruct H as [->|(caller & t & ->)]; [repeat split|].
  destruct (update_columns id caller t (Entry (store w)))
    as (H1 & H2 & H3 & _ & H5 & _).
  repeat split; assumption.
Qed.

(** X5. Neither handler ever touches the association rows of another entry,
    and a DELETE leaves the Entry rows of every other id, and every row it
    keeps, exactly as they were, whatever the database rejects. *)
Theorem handlers_leave_other_entries_alone
  (E : Engine) (session : option Session) (req : Request) (id : Z) (w : World) :
  let others := fun a => negb (of_entry id a) in
  let after_put := store (snd (PUT E session req id w)) in
  let after_delete := store (snd (DELETE E session id w)) in
  filter others (EntryCompetency after_put)
  = filter others (EntryCompetency (store w))
  /\ filter others (EntryCompetency after_delete)
     = filter others (EntryCompetency (store w))
  /\ filter (fun row => negb (e_id row =? id)) (Entry after_delete)
     = filter (fun row => negb (e_id row =? id)) (Entry (store w))
  /\ (forall row, In row (Entry after_delete) -> In row (Entry (store w))).
Proof.
  intros others after_put after_delete. subst others after_put after_delete.
  split; [|split; [|split]].
  - destruct (session_email session) as [caller|] eqn:Hauth.
    + destruct (json req) as [b|] eqn:Hbody.
      * destruct (PUT_outcome E session req id caller b Hauth Hbody w _ _
                    (surjective_pairing _))
          as [(_ & -> & _)|[(_ & -> & _)|[(_ & _ & ->)|(k & _ & _ & -> & _)]]];
          cbn [EntryCompetency]; try reflexivity.
        apply filter_prefix_others.
      * rewrite (PUT_unparsed E session req id caller w Hauth Hbody). reflexivity.
    + unfold PUT. rewrite Hauth. reflexivity.
  - destruct (session_email session) as [caller|] eqn:Hauth.
    + rewrite (DELETE_run E session id caller Hauth w).
      destruct (db_error E (DeleteAssociations id) (store w)); [reflexivity|].
      cbv zeta. destruct (db_error E (DeleteEntry id caller) _);
        cbn [snd store run fst EntryCompetency]; apply filter_idem.
    + unfold DELETE. rewrite Hauth. reflexivity.
  - destruct (session_email session) as [caller|] eqn:Hauth.
    + rewrite (DELETE_run E session id caller Hauth w).
      destruct (db_error E (DeleteAssociations id) (store w)); [reflexivity|].
      cbv zeta. destruct (db_error E (DeleteEntry id caller) _);
        cbn [snd store run fst Entry]; [reflexivity|].
      induction (Entry (store w)) as [|a l IH]; simpl; [reflexivity|].
      unfold owned at 1. destruct (e_id a =? id) eqn:Hid; simpl.
      * destruct (JsString_eqb (e_user a) caller); simpl;
          [|rewrite Hid; simpl]; exact IH.
      * rewrite Hid. simpl. rewrite IH. reflexivity.
    + unfold DELETE. rewrite Hauth. reflexivity.
  - destruct (session_email session) as [caller|] eqn:Hauth.
    + rewrite (DELETE_run E session id caller Hauth w).
      destruct (db_error E (DeleteAssociations id) (store w)); [auto|].
      cbv zeta. destruct (db_error E (DeleteEntry id caller) _);
        cbn [snd store run fst Entry]; [auto|].
      intros row Hin. apply filter_In in Hin. tauto.
    + unfold DELETE. rewrite Hauth. auto.
Qed.



(** X7. Against a database that accepts every statement, sending the same
    PUT again gets the same answer and leaves the store as the first call
    left it. *)
Theorem put_twice_is_put_once
  (E : Engine) (session : option Session) (req : Request) (id : Z)
  (caller : JsString) (b : Body) (w : World) :
  reliable E ->
  session_email session = Some caller ->
  json req = Some b ->
  let first := PUT E session req id w in
  let second := PUT E session req id (snd first) in
  fst second = fst first /\ store (snd second) = store (snd first).
Proof.
  intros HE Hauth Hbody first second. subst first second.
  destruct (PUT_reliable E HE session id caller Hauth req b w Hbody) as [x1 H1].
  rewrite H1. cbn [snd fst].
  destruct (PUT_reliable E HE session id caller Hauth req b
              {| store :=
                   if count (owned id caller) (Entry (store w)) =? 0
                   then store w
                   else
                     {| Entry :=
                          map (fun row => if owned id caller row
                                          then set_text (text b) row else row)
                              (Entry (store w));
                        EntryCompetency :=
                          filter (fun a => negb (of_entry id a))
                                 (EntryCompetency (store w))
                          ++ map (association id) (competencyIDs b) |};
                 executed := x1 |} Hbody) as [x2 H2].
  rewrite H2. cbn [snd fst store].
  destruct (count (owned id caller) (Entry (store w)) =? 0) eqn:Hn.
  - rewrite Hn. auto.
  - cbn [Entry EntryCompetency].
    destruct (update_columns id caller (text b) (Entry (store w)))
      as (_ & _ & _ & _ & _ & Hc).
    cbv zeta in Hc. rewrite Hc, Hn. split; [reflexivity|].
    f_equal.
    + apply update_idempotent.
    + rewrite rows_of_others_kept. reflexivity.
Qed.

(** Ann retags her entry 7 twice. *)
Lemma put_twice_is_put_once_witness :
  let first := PUT steady (signed_in ann) (sending retag) 7 sample in
  let second := PUT steady (signed_in ann) (sending retag) 7 (snd first) in
  fst second = fst first /\ store (snd second) = store (snd first).
Proof.
  refine (put_twice_is_put_once steady (signed_in ann) (sending retag) 7 ann retag
            sample _ eq_refl eq_refl).
  intros q s0; reflexivity.
Defined.

(** X8. After a DELETE the entry is gone for its caller: against a database
    that accepts every statement, a second DELETE of the id, or a PUT to
    it, by the same caller is answered 404 and changes nothing in the
    store. *)
Theorem deleted_entry_stays_deleted
  (E : Engine) (session : option Session) (req : Request) (id : Z)
  (caller : JsString) (b : Body) (w : World) :
  reliable E ->
  session_email session = Some caller ->
  json req = Some b ->
  let w1 := snd (DELETE E session id w) in
  fst (DELETE E session id w1) = not_found
  /\ store (snd (DELETE E session id w1)) = store w1
  /\ fst (PUT E session req id w1) = not_found
  /\ store (snd (PUT E session req id w1)) = store w1.
Proof.
  intros HE Hauth Hbody w1. subst w1.
  rewrite (DELETE_reliable E HE session id caller Hauth w). cbn [snd].
  set (w1 := {| store := _; executed := _ |}).
  assert (Hnone : forall row, In row (Entry (store w1)) -> owned id caller row = false).
  { intros row Hin. subst w1. cbn [store Entry] in Hin.
    apply filter_In in Hin. destruct Hin as [_ Hin].
    apply negb_true_iff in Hin. exact Hin. }
  assert (H0 : count (owned id caller) (Entry (store w1)) = 0)
    by (apply count_zero; exact Hnone).
  rewrite (DELETE_reliable E HE session id caller Hauth w1), H0.
  destruct (PUT_reliable E HE session id caller Hauth req b w1 Hbody) as [x Hput].
  rewrite Hput, H0. cbn [fst snd store Z.eqb].
  split; [reflexivity|]. split; [|split; reflexivity].
  subst w1. cbn [store Entry EntryCompetency]. f_equal; apply filter_idem.
Qed.

(** Ann deletes her entry 7, then tries again and tries to retag it. *)
Lemma deleted_entry_stays_deleted_witness :
  let w1 := snd (DELETE steady (signed_in ann) 7 sample) in
  fst (DELETE steady (signed_in ann) 7 w1) = not_found
  /\ store (snd (DELETE steady (signed_in ann) 7 w1)) = store w1
  /\ fst (PUT steady (signed_in ann) (sending retag) 7 w1) = not_found
  /\ store (snd (PUT steady (signed_in ann) (sending retag) 7 w1)) = store w1.
Proof.
  refine (deleted_entry_stays_deleted steady (signed_in ann) (sending retag) 7 ann
            retag sample _ eq_refl eq_refl).
  intros q s0; reflexivity.
Defined.

End RouteExtras.

(* ================================================================= *)
(** ** Further properties of the widget *)

Section SaveFacts.
Import Types DailyThought.

Lemma JsString_eqb_false (a b : JsString) : a <> b -> JsString_eqb a b = false.
Proof.
  intros H. destruct (JsString_eqb a b) eqn:Heq; [|reflexivity].
  apply JsString_eqb_eq in Heq. contradiction.
Qed.

(** On thoughts with distinct ids, rewriting the thoughts of one id with the
    fields of the thought that has it changes nothing. *)
Lemma rewrite_own_fields (l : list Thought) (thought : Thought) :
  NoDup (map t_id l) -> In thought l ->
  map (fun t =>
         if t_id t =? t_id thought
         then {| t_id := t_id t; t_text := t_text thought;
                 t_time := t_time t;
                 t_competencies := t_competencies thought |}
         else t) l
  = l.
Proof.
  intros Hnd Hin. rewrite <- (map_id l) at 2. apply map_ext_in.
  intros t Ht. destruct (t_id t =? t_id thought) eqn:Hid; [|reflexivity].
  apply Z.eqb_eq in Hid.
  assert (t = thought).
  { clear - Hnd Hin Ht Hid. induction l as [|a l IH]; [contradiction|].
    simpl in Hnd. inversion Hnd as [|? ? Hnotin Hnd']; subst.
    destruct Ht as [<-|Ht], Hin as [<-|Hin]; auto.
    - exfalso; apply Hnotin. rewrite Hid. apply in_map; assumption.
    - exfalso; apply Hnotin. rewrite <- Hid. apply in_map; assumption. }
  subst t. destruct thought; reflexivity.
Qed.

End SaveFacts.

Section WidgetExtras.
Import Types DailyThought Scenario Fixtures.

(** X9. Whenever the trimmed input is not empty, [handleSave] sends exactly
    one request: a PUT to the edited entry's path when an entry is being
    edited, a POST otherwise.  Its body carries the input as typed, not
    trimmed, and the current selection.  If the server refuses, an alert is
    shown and the state stays as it was. *)
Theorem save_sends_the_input_as_typed
  (toLocaleString : JsString -> JsString) (fetch : FetchRequest -> FetchResponse)
  (st : State) :
  trim (input st) <> [] ->
  let req :=
    {| url := match editingId st with
              | Some id => js "/api/entry/" ++ Number_toString id
              | None => js "api/entry"
              end;
       method := match editingId st with
                 | Some _ => js "PUT"
                 | None => js "POST"
                 end;
       body := Some {| b_text := input st; b_competencyIDs := selected st |} |} in
  (snd (handleSave toLocaleString fetch st) = [Fetch req]
   \/ exists msg, snd (handleSave toLocaleString fetch st) = [Fetch req; Alert msg])
  /\ (ok (fetch req) = false ->
      exists msg, handleSave toLocaleString fetch st = (st, [Fetch req; Alert msg])).
Proof.
  intros Hfull req. subst req. unfold handleSave.
  rewrite (JsString_eqb_false _ _ Hfull).
  destruct (editingId st) as [id|].
  - destruct (ok (fetch _)) eqn:Hok; cbn [negb snd].
    + split; [left; reflexivity | discriminate].
    + split; [right; eexists; reflexivity | intros _; eexists; reflexivity].
  - destruct (ok (fetch _)) eqn:Hok; cbn [negb snd].
    + split; [|discriminate].
      destruct (res_json (fetch _)); left; reflexivity.
    + split; [right; eexists; reflexivity | intros _; eexists; reflexivity].
Qed.

(** The padded text goes out with its spaces. *)
Lemma save_sends_the_input_as_typed_witness :
  snd (handleSave verbatim accepting typing)
  = [Fetch {| url := js "api/entry"; method := js "POST";
              body := Some {| b_text := js " hi ";
                              b_competencyIDs := [Some 2] |} |}]
  \/ exists msg,
       snd (handleSave verbatim accepting typing)
       = [Fetch {| url := js "api/entry"; method := js "POST";
                   body := Some {| b_text := js " hi ";
                                   b_competencyIDs := [Some 2] |} |};
          Alert msg].
Proof.
  refine (proj1 (save_sends_the_input_as_typed verbatim accepting typing _)).
  vm_compute. discriminate.
Defined.

(** X10. A successful create puts the thought the server answered with at
    the head of the list, so it is the first card of the widget, followed by
    the cards of the first four thoughts held before; input and selection are
    cleared.  The thought takes its text and its competencies from the
    answer as they are (nulls included), not from what was typed. *)
Theorem created_thought_is_shown_first
  (toLocaleString : JsString -> JsString) (fetch : FetchRequest -> FetchResponse)
  (st : State) (n : NewThought) :
  editingId st = None ->
  trim (input st) <> [] ->
  fetch {| url := js "api/entry"; method := js "POST";
           body := Some {| b_text := input st; b_competencyIDs := selected st |} |}
  = {| ok := true; res_json := Some n |} ->
  let created :=
    {| t_id := n_id n; t_text := n_text n;
       t_time := toLocaleString (n_createdAt n);
       t_competencies := n_competencies n |} in
  let st' := fst (handleSave toLocaleString fetch st) in
  thoughts st' = created :: thoughts st
  /\ input st' = [] /\ selected st' = [] /\ editingId st' = None
  /\ competencies st' = competencies st
  /\ render st'
     = Cards (renderCard (competencies st) created
              :: map (renderCard (competencies st)) (firstn 4 (thoughts st))).
Proof.
  intros Hnew Hfull Hres created st'. subst created st'.
  unfold handleSave. rewrite (JsString_eqb_false _ _ Hfull), Hnew, Hres.
  cbn [ok negb res_json fst].
  unfold render, slice, setSelected, setInput, setThoughts.
  cbn [thoughts input selected editingId competencies length Nat.eqb skipn
       Nat.sub firstn map].
  rewrite Hnew. repeat split.
Qed.

(** The typed thought comes back as entry 9 and is the first card. *)
Lemma created_thought_is_shown_first_witness :
  map t_id (thoughts (fst (handleSave verbatim accepting typing))) = [9; 7; 8]
  /\ input (fst (handleSave verbatim accepting typing)) = [].
Proof.
  destruct (created_thought_is_shown_first verbatim accepting typing
              {| n_id := 9; n_text := js " hi "; n_createdAt := js "2024-01-02";
                 n_competencies := [Some 2; None] |} eq_refl)
    as (Ht & Hi & _).
  - vm_compute. discriminate.
  - reflexivity.
  - split; [rewrite Ht; reflexivity | exact Hi].
Defined.

(** X11. A successful save of an edit changes the thoughts in place: the
    ids and the times are column for column what they were, every thought of
    the edited id now has the input as its text and the selection as its
    competencies, the thoughts of other ids are untouched, and the editor is
    reset (no input, no selection, no entry being edited). *)
Theorem edit_is_saved_in_place
  (toLocaleString : JsString -> JsString) (fetch : FetchRequest -> FetchResponse)
  (st : State) (id : Z) :
  editingId st = Some id ->
  trim (input st) <> [] ->
  ok (fetch {| url := js "/api/entry/" ++ Number_toString id; method := js "PUT";
               body := Some {| b_text := input st;
                               b_competencyIDs := selected st |} |}) = true ->
  let st' := fst (handleSave toLocaleString fetch st) in
  map t_id (thoughts st') = map t_id (thoughts st)
  /\ map t_time (thoughts st') = map t_time (thoughts st)
  /\ (forall t, In t (thoughts st') -> t_id t = id ->
        t_text t = input st /\ t_competencies t = selected st)
  /\ filter (fun t => negb (t_id t =? id)) (thoughts st')
     = filter (fun t => negb (t_id t =? id)) (thoughts st)
  /\ input st' = [] /\ selected st' = [] /\ editingId st' = None
  /\ competencies st' = competencies st.
Proof.
  intros Hedit Hfull Hok st'. subst st'.
  unfold handleSave. rewrite (JsString_eqb_false _ _ Hfull), Hedit, Hok.
  cbn [negb fst]. unfold setEditingId, setSelected, setInput, setThoughts.
  cbn [thoughts input selected editingId competencies].
  split; [|split; [|split; [|split; [|repeat split]]]].
  - rewrite map_map. apply map_ext. intros t. destruct (t_id t =? id); reflexivity.
  - rewrite map_map. apply map_ext. intros t. destruct (t_id t =? id); reflexivity.
  - intros t Hin Hid. apply in_map_iff in Hin. destruct Hin as [t0 [Ht0 _]].
    destruct (t_id t0 =? id) eqn:H0.
    + subst t. auto.
    + subst t. apply Z.eqb_neq in H0. contradiction.
  - induction (thoughts st) as [|a l IH]; simpl; [reflexivity|].
    destruct (t_id a =? id) eqn:Ha; simpl; rewrite Ha; simpl; rewrite IH; reflexivity.
Qed.

(** Thought 7 is opened, its text replaced and competency 1 unticked. *)
Lemma edit_is_saved_in_place_witness :
  let st := toggleCompetency 1 (setInput (js "hello again") (handleEdit hello resting)) in
  thoughts (fst (handleSave verbatim accepting st))
  = [ {| t_id := 7; t_text := js "hello again"; t_time := js "Jan 01, 2024";
         t_competencies := [Some 2] |}; other ]
  /\ editingId (fst (handleSave verbatim accepting st)) = None.
Proof.
  intros st.
  destruct (edit_is_saved_in_place verbatim accepting st 7 eq_refl)
    as (_ & _ & _ & _ & _ & _ & He & _).
  - vm_compute. discriminate.
  - reflexivity.
  - split; [reflexivity | exact He].
Defined.

(** X12. Opening a thought for editing and saving it untouched leaves the
    list of thoughts exactly as it was and resets the editor, provided the
    ids of the thoughts are distinct, the text is not blank and the server
    accepts. *)
Theorem edit_then_save_round_trip
  (toLocaleString : JsString -> JsString) (fetch : FetchRequest -> FetchResponse)
  (st : State) (thought : Thought) :
  In thought (thoughts st) ->
  NoDup (map t_id (thoughts st)) ->
  trim (t_text thought) <> [] ->
  (forall req, ok (fetch req) = true) ->
  let saved := handleSave toLocaleString fetch (handleEdit thought st) in
  thoughts (fst saved) = thoughts st
  /\ input (fst saved) = [] /\ selected (fst saved) = []
  /\ editingId (fst saved) = None
  /\ competencies (fst saved) = competencies st
  /\ snd saved
     = [Fetch {| url := js "/api/entry/" ++ Number_toString (t_id thought);
                 method := js "PUT";
                 body := Some {| b_text := t_text thought;
                                 b_competencyIDs := t_competencies thought |} |}].
Proof.
  intros Hin Hnd Hfull Hok saved. subst saved.
  unfold handleSave, handleEdit, setEditingId, setSelected, setInput, setThoughts.
  cbn [thoughts input selected editingId competencies].
  rewrite (JsString_eqb_false _ _ Hfull), Hok. cbn [negb fst snd thoughts
    input selected editingId competencies].
  rewrite (rewrite_own_fields (thoughts st) thought Hnd Hin).
  repeat split.
Qed.

(** Thought 7 of the resting widget is opened and saved as it is. *)
Lemma edit_then_save_round_trip_witness :
  thoughts (fst (handleSave verbatim accepting (handleEdit hello resting)))
  = [hello; other]
  /\ editingId (fst (handleSave verbatim accepting (handleEdit hello resting))) = None.
Proof.
  assert (Hnd : NoDup (map t_id (thoughts resting))).
  { simpl. constructor; [simpl; intros [H|[]]; discriminate|].
    constructor; [simpl; tauto | constructor]. }
  destruct (edit_then_save_round_trip verbatim accepting resting hello)
    as (Ht & _ & _ & He & _); auto.
  - simpl; auto.
  - vm_compute. discriminate.
Defined.

(** X13. Deleting a thought never touches the editor: input, selection and
    the entry being edited stay, even when the deleted thought is the one
    being edited.  On success no thought of that id is left and the others
    keep their order; a save pressed afterwards still sends a PUT for the
    deleted id and, accepted or not, changes no thought. *)
Theorem delete_leaves_a_dangling_edit
  (toLocaleString : JsString -> JsString) (fetch : FetchRequest -> FetchResponse)
  (st : State) (id : Z) :
  editingId st = Some id ->
  trim (input st) <> [] ->
  ok (fetch {| url := js "/api/entry/" ++ Number_toString id;
               method := js "DELETE"; body := None |}) = true ->
  let st1 := fst (handleDelete fetch id st) in
  let saved := handleSave toLocaleString fetch st1 in
  input st1 = input st /\ selected st1 = selected st /\ editingId st1 = Some id
  /\ thoughts st1 = filter (fun t => negb (t_id t =? id)) (thoughts st)
  /\ (forall t, In t (thoughts st1) -> t_id t <> id)
  /\ (exists rest,
        snd saved
        = Fetch {| url := js "/api/entry/" ++ Number_toString id; method := js "PUT";
                   body := Some {| b_text := input st;
                                   b_competencyIDs := selected st |} |} :: rest)
  /\ thoughts (fst saved) = thoughts st1.
Proof.
  intros Hedit Hfull Hok st1 saved. subst saved st1.
  unfold handleDelete. rewrite Hok. cbn [negb fst].
  cbn [setThoughts thoughts input selected editingId competencies].
  assert (Hgone : forall t,
            In t (filter (fun t => negb (t_id t =? id)) (thoughts st)) -> t_id t <> id).
  { intros t Hin Hid. apply filter_In in Hin. destruct Hin as [_ Hin].
    apply Z.eqb_eq in Hid. rewrite Hid in Hin. discriminate. }
  split; [reflexivity|]. split; [reflexivity|]. split; [exact Hedit|].
  split; [reflexivity|]. split; [exact Hgone|].
  unfold handleSave.
  cbn [setThoughts thoughts input selected editingId competencies].
  rewrite (JsString_eqb_false _ _ Hfull), Hedit.
  match goal with
  | |- context [ok (fetch ?r)] => destruct (ok (fetch r))
  end; cbn [negb fst snd].
  - split; [eexists; reflexivity|].
    cbn [setEditingId setSelected setInput setThoughts thoughts].
    rewrite <- (map_id (filter _ (thoughts st))) at 2.
    apply map_ext_in. intros t Hin.
    destruct (t_id t =? id) eqn:Hid; [|reflexivity].
    apply Z.eqb_eq in Hid. exfalso. exact (Hgone t Hin Hid).
  - split; [eexists; reflexivity | reflexivity].
Qed.

(** Thought 7 is deleted while it is open in the editor. *)
Lemma delete_leaves_a_dangling_edit_witness :
  let st1 := fst (handleDelete accepting 7 (handleEdit hello resting)) in
  editingId st1 = Some 7
  /\ thoughts st1 = [other]
  /\ thoughts (fst (handleSave verbatim accepting st1)) = thoughts st1.
Proof.
  intros st1.
  destruct (delete_leaves_a_dangling_edit verbatim accepting
              (handleEdit hello resting) 7 eq_refl)
    as (_ & _ & He & Ht & _ & _ & Hs).
  - vm_compute. discriminate.
  - reflexivity.
  - split; [exact He | split; [exact Ht | exact Hs]].
Defined.

(** X14. On any selection, duplicates or not, a toggle leaves the other
    elements in their order; afterwards the id occurs once, at the end, if
    it was absent and not at all if it was present (every occurrence is
    removed).  Ticking an absent id and unticking it restores the selection
    exactly, and three toggles are one. *)
Theorem toggle_on_any_selection (id : Z) (prev : list (option Z)) :
  let others := fun c => negb (strict_eq c (Some id)) in
  filter others (toggle id prev) = filter others prev
  /\ filter (fun c => strict_eq c (Some id)) (toggle id prev)
     = (if includes prev id then [] else [Some id])
  /\ toggle id prev
     = (if includes prev id then filter others prev else filter others prev ++ [Some id])
  /\ (if includes prev id then True else toggle id (toggle id prev) = prev)
  /\ toggle id (toggle id (toggle id prev)) = toggle id prev.
Proof.
  intros others.
  assert (Hmine : strict_eq (Some id) (Some id) = true)
    by (apply strict_eq_true; reflexivity).
  assert (Hclean : forall l, includes (filter others l) id = false).
  { intros l. apply includes_not_In. intros H. apply filter_In in H.
    destruct H as [_ H]. subst others. cbv beta in H. rewrite Hmine in H. discriminate. }
  assert (Hkeep : forall l, includes l id = false -> filter others l = l).
  { intros l Hl. apply filter_all. intros c Hc. subst others. cbv beta.
    apply negb_true_iff, strict_eq_false. intros ->.
    apply includes_not_In in Hl. contradiction. }
  assert (Hsnoc : forall l, includes (l ++ [Some id]) id = true).
  { intros l. apply includes_In. apply in_app_iff. right. left. reflexivity. }
  assert (Hdrop : forall l, filter others (l ++ [Some id]) = filter others l).
  { intros l. rewrite filter_app. simpl. subst others. cbv beta.
    rewrite Hmine. simpl. apply app_nil_r. }
  assert (Hnone : forall l, filter (fun c => strict_eq c (Some id)) (filter others l) = []).
  { intros l. induction l as [|a l IH]; simpl; [reflexivity|].
    subst others. cbv beta. destruct (strict_eq a (Some id)) eqn:Ha; simpl;
      [exact IH | rewrite Ha; exact IH]. }
  assert (Hpresent : forall l, includes l id = true -> toggle id l = filter others l)
    by (intros l Hl; unfold toggle; rewrite Hl; reflexivity).
  assert (Habsent : forall l, includes l id = false -> toggle id l = l ++ [Some id])
    by (intros l Hl; unfold toggle; rewrite Hl; reflexivity).
  destruct (includes prev id) eqn:Hinc.
  - rewrite !(Hpresent prev Hinc).
    split; [apply filter_idem|]. split; [apply Hnone|]. split; [reflexivity|].
    split; [exact I|].
    rewrite (Habsent _ (Hclean prev)), (Hpresent _ (Hsnoc _)), Hdrop.
    apply filter_idem.
  - rewrite !(Habsent prev Hinc), (Hpresent _ (Hsnoc prev)), !Hdrop, !(Hkeep prev Hinc).
    split; [reflexivity|]. split.
    { rewrite filter_app. cbn [filter]. rewrite Hmine.
      replace (filter _ prev) with (@nil (option Z)); [reflexivity|].
      symmetry. rewrite <- (Hkeep prev Hinc). apply Hnone. }
    split; [reflexivity|]. split; [reflexivity|].
    apply Habsent; exact Hinc.
Qed.

End WidgetExtras.

Section LabelFacts.
Import Types.

Lemma truthy_app (a b : JsString) : truthy a = true -> truthy (a ++ b) = true.
Proof. destruct a; simpl; [discriminate | reflexivity]. Qed.

Lemma skillName_truthy (cs : list Competency) (id : option Z) :
  truthy (skillName cs id) = true.
Proof.
  unfold skillName.
  destruct (find _ cs) as [c|]; [destruct (truthy (c_skill c)) eqn:Hs|];
    try assumption; reflexivity.
Qed.

Lemma join_truthy (sep : JsString) (l : list JsString) :
  l <> [] -> (forall x, In x l -> truthy x = true) -> truthy (join sep l) = true.
Proof.
  destruct l as [|x l]; [congruence|]. intros _ H.
  assert (Hx : truthy x = true) by (apply H; left; reflexivity).
  destruct l as [|y l]; simpl; [exact Hx | apply truthy_app; exact Hx].
Qed.

(** With distinct ids in the catalog, looking an entry's id up finds that
    entry. *)
Lemma find_by_id (cs : list Competency) (c : Competency) :
  NoDup (map c_id cs) -> In c cs ->
  find (fun c' => strict_eq (Some (c_id c')) (Some (c_id c))) cs = Some c.
Proof.
  induction cs as [|a cs IH]; simpl; intros Hnd Hin; [contradiction|].
  inversion Hnd as [|? ? Hnotin Hnd']; subst.
  destruct Hin as [->|Hin].
  - rewrite Z.eqb_refl. reflexivity.
  - destruct (c_id a =? c_id c) eqn:Ha.
    + apply Z.eqb_eq in Ha. exfalso. apply Hnotin. rewrite Ha.
      apply in_map; assumption.
    + apply IH; assumption.
Qed.

Lemma find_no_id (cs : list Competency) (id : option Z) :
  (forall c, In c cs -> Some (c_id c) <> id) ->
  find (fun c' => strict_eq (Some (c_id c')) id) cs = None.
Proof.
  induction cs as [|a cs IH]; intros H; [reflexivity|].
  assert (Ha : strict_eq (Some (c_id a)) id = false)
    by (apply strict_eq_false; apply H; left; reflexivity).
  cbn [find]. rewrite Ha. apply IH. intros c Hc. apply H. right; assumption.
Qed.

Lemma trim_truthy (s : JsString) : trim s <> [] -> truthy s = true.
Proof. destruct s; [intros H; exfalso; apply H; reflexivity | reflexivity]. Qed.

End LabelFacts.

Section LabelExtras.
Import Types DailyThought.

(** X15. The label shown for a competency id is never empty: it is the
    skill of the catalog entry of that id when there is one with a skill
    that is not empty, and [#] followed by the id otherwise (an id the
    catalog lacks, an empty skill, a null).  A card of the widget carries a
    competencies line exactly when its thought has competencies, and that
    line is not empty. *)
Theorem labels_are_never_empty
  (cs : list Competency) (thought : Thought) (id : option Z) :
  truthy (skillName cs id) = true
  /\ match card_competencies (renderCard cs thought) with
     | None => t_competencies thought = []
     | Some line => t_competencies thought <> [] /\ truthy line = true
     end
  /\ (forall c, NoDup (map c_id cs) -> In c cs ->
        skillName cs (Some (c_id c))
        = if truthy (c_skill c) then c_skill c
          else js "#" ++ Number_toString (c_id c))
  /\ ((forall c, In c cs -> Some (c_id c) <> id) ->
      skillName cs id = js "#" ++ toString id).
Proof.
  split; [apply skillName_truthy|]. split; [|split].
  - unfold renderCard. cbn [card_competencies].
    destruct (t_competencies thought) as [|c l] eqn:Hc; cbn [length Nat.ltb Nat.leb].
    + reflexivity.
    + split; [discriminate|]. apply join_truthy; [discriminate|].
      intros x Hx. apply in_map_iff in Hx. destruct Hx as [i [<- _]].
      apply skillName_truthy.
  - intros c Hnd Hin. unfold skillName. rewrite (find_by_id cs c Hnd Hin).
    reflexivity.
  - intros Hnone. unfold skillName. rewrite (find_no_id cs id Hnone). reflexivity.
Qed.

End LabelExtras.

(* ================================================================= *)
(** ** Further properties of the history page *)

Section PageExtras.
Import Types Scenario Fixtures.

(** X16. On the history page a dismissed dialog does nothing: when the
    prompt of the Edit button is cancelled or answered with an empty or
    white-space-only text, and when the confirmation of the Delete button is
    declined, no request is sent and the thoughts stay as they are. *)
Theorem dismissed_dialogs_do_nothing
  (fetch : DailyThought.FetchRequest -> DailyThought.FetchResponse)
  (answer : option JsString) (thought : Thought) (st : ThoughtsPage.State) :
  match answer with
  | None => True
  | Some newText => trim newText = []
  end ->
  ThoughtsPage.onEdit fetch answer thought st = (st, [])
  /\ ThoughtsPage.onDelete fetch false thought st = (st, []).
Proof.
  intros Hanswer. split; [|reflexivity].
  unfold ThoughtsPage.onEdit. destruct answer as [newText|]; [|reflexivity].
  rewrite Hanswer. cbn [JsString_eqb]. rewrite orb_true_r. reflexivity.
Qed.

(** The prompt is answered with blanks. *)
Lemma dismissed_dialogs_do_nothing_witness :
  ThoughtsPage.onEdit accepting (Some blank) hello history = (history, [])
  /\ ThoughtsPage.onDelete accepting false hello history = (history, []).
Proof.
  exact (dismissed_dialogs_do_nothing accepting (Some blank) hello history eq_refl).
Defined.

(** X17. A successful edit on the history page changes texts only: the PUT
    carries the new text and the thought's own competencies, and afterwards
    the ids, the times and the competencies of the thoughts are column for
    column what they were, every thought of that id has the new text, and
    the thoughts of other ids are untouched. *)
Theorem page_edit_changes_text_only
  (fetch : DailyThought.FetchRequest -> DailyThought.FetchResponse)
  (newText : JsString) (thought : Thought) (st : ThoughtsPage.State) :
  trim newText <> [] ->
  let req :=
    {| DailyThought.url := js "/api/entry/" ++ Number_toString (t_id thought);
       DailyThought.method := js "PUT";
       DailyThought.body :=
         Some {| DailyThought.b_text := newText;
                 DailyThought.b_competencyIDs := t_competencies thought |} |} in
  DailyThought.ok (fetch req) = true ->
  let after := ThoughtsPage.thoughts (fst (ThoughtsPage.onEdit fetch (Some newText) thought st)) in
  snd (ThoughtsPage.onEdit fetch (Some newText) thought st) = [DailyThought.Fetch req]
  /\ map t_id after = map t_id (ThoughtsPage.thoughts st)
  /\ map t_time after = map t_time (ThoughtsPage.thoughts st)
  /\ map t_competencies after = map t_competencies (ThoughtsPage.thoughts st)
  /\ (forall t, In t after -> t_id t = t_id thought -> t_text t = newText)
  /\ filter (fun t => negb (t_id t =? t_id thought)) after
     = filter (fun t => negb (t_id t =? t_id thought)) (ThoughtsPage.thoughts st).
Proof.
  intros Hfull req Hok after. subst after.
  unfold ThoughtsPage.onEdit. fold req.
  rewrite (trim_truthy _ Hfull), (JsString_eqb_false _ _ Hfull), Hok.
  cbn [negb orb fst snd ThoughtsPage.setThoughts ThoughtsPage.thoughts].
  split; [reflexivity|].
  split; [rewrite map_map; apply map_ext; intros t;
          destruct (t_id t =? t_id thought); reflexivity|].
  split; [rewrite map_map; apply map_ext; intros t;
          destruct (t_id t =? t_id thought); reflexivity|].
  split; [rewrite map_map; apply map_ext; intros t;
          destruct (t_id t =? t_id thought); reflexivity|].
  split.
  - intros t Hin Hid. apply in_map_iff in Hin. destruct Hin as [t0 [Ht0 _]].
    destruct (t_id t0 =? t_id thought) eqn:H0; subst t; [reflexivity|].
    apply Z.eqb_neq in H0. contradiction.
  - induction (ThoughtsPage.thoughts st) as [|a l IH]; simpl; [reflexivity|].
    destruct (t_id a =? t_id thought) eqn:Ha; simpl; rewrite Ha; simpl;
      rewrite IH; reflexivity.
Qed.

(** Thought 7 of the history gets a new text. *)
Lemma page_edit_changes_text_only_witness :
  ThoughtsPage.thoughts
    (fst (ThoughtsPage.onEdit accepting (Some (js "hello again")) hello history))
  = [ {| t_id := 7; t_text := js "hello again"; t_time := js "Jan 01, 2024";
         t_competencies := [Some 1; Some 2] |}; other ]
  /\ map t_competencies
       (ThoughtsPage.thoughts
          (fst (ThoughtsPage.onEdit accepting (Some (js "hello again")) hello history)))
     = map t_competencies (ThoughtsPage.thoughts history).
Proof.
  destruct (page_edit_changes_text_only accepting (js "hello again") hello history)
    as (_ & _ & _ & Hc & _).
  - vm_compute. discriminate.
  - reflexivity.
  - split; [reflexivity | exact Hc].
Defined.

(** X18. The history page shows a placeholder exactly when it holds no
    thought and otherwise one card per thought, all of them, in the order
    held.  A widget holding the same thoughts and catalog shows the first
    five of these cards: the same keys, and as competencies line the names
    of the page's chips joined by a comma and a space. *)
Theorem page_shows_every_thought
  (st : ThoughtsPage.State) (widget : DailyThought.State) :
  let line := fun c => option_map
                         (fun chips => join (js ", ") (map ThoughtsPage.chip_name chips))
                         (ThoughtsPage.card_chips c) in
  match ThoughtsPage.render st with
  | ThoughtsPage.Placeholder _ => ThoughtsPage.thoughts st = []
  | ThoughtsPage.Cards cards =>
      length cards = length (ThoughtsPage.thoughts st)
      /\ (0 < length cards)%nat
      /\ map ThoughtsPage.key cards = map t_id (ThoughtsPage.thoughts st)
      /\ (DailyThought.thoughts widget = ThoughtsPage.thoughts st ->
          DailyThought.competencies widget = ThoughtsPage.competencies st ->
          exists shown,
            DailyThought.render widget = DailyThought.Cards shown
            /\ map DailyThought.key shown = firstn 5 (map ThoughtsPage.key cards)
            /\ map DailyThought.card_competencies shown = firstn 5 (map line cards))
  end.
Proof.
  intros line. unfold ThoughtsPage.render, DailyThought.render, slice. cbn [skipn].
  destruct (ThoughtsPage.thoughts st) as [|t ts] eqn:Hts; [reflexivity|].
  change (length (t :: ts) =? 0)%nat with false. cbv iota.
  set (l := t :: ts).
  split; [apply length_map|].
  split; [rewrite length_map; subst l; simpl; lia|].
  split; [rewrite map_map; reflexivity|].
  intros Hsame Hcs. rewrite Hsame, Hcs.
  change (length l =? 0)%nat with false. cbv iota.
  eexists. split; [reflexivity|]. split.
  - rewrite !map_map. cbn [DailyThought.renderCard DailyThought.key
                           ThoughtsPage.renderCard ThoughtsPage.key].
    rewrite firstn_map. reflexivity.
  - rewrite !map_map, <- firstn_map. cbn [Nat.sub]. f_equal.
    apply map_ext. intros a. subst line.
    cbn [DailyThought.renderCard DailyThought.card_competencies
         ThoughtsPage.renderCard ThoughtsPage.card_chips].
    destruct (0 <? length (t_competencies a))%nat; [|reflexivity].
    cbn [option_map]. rewrite map_map. reflexivity.
Qed.

End PageExtras.

(* ================================================================= *)
(** ** Worked examples on the sample store *)

Section Examples.
Import Route Outcome Types Scenario.

Example trim_strips_both_ends :
  trim ([32; 9] ++ js "to do" ++ [160; 10])%N = js "to do".
Proof. reflexivity. Qed.

Example trim_blank : trim blank = [].
Proof. reflexivity. Qed.

(** Ann rewrites her entry 7 and tags it 3 and 1: bob's row and bob's
    association stay, hers are replaced. *)
Example put_on_sample :
  PUT steady (signed_in ann)
    {| json := Some {| text := js "new"; competencyIDs := [3; 1] |} |} 7 sample
  = (updated,
     {| store :=
          {| Entry :=
               [ {| e_id := 7; e_text := js "new"; e_createdAt := js "t7"; e_user := ann |};
                 {| e_id := 8; e_text := js "other"; e_createdAt := js "t8"; e_user := bob |} ];
             EntryCompetency := [ association 8 1; association 7 3; association 7 1 ] |};
        executed :=
          [ UpdateText (js "new") 7 ann; DeleteAssociations 7;
            InsertAssociation 7 3; InsertAssociation 7 1 ] |}).
Proof. reflexivity. Qed.

(** An empty id list clears the associations of the entry. *)
Example put_empty_ids_on_sample :
  EntryCompetency
    (store (snd (PUT steady (signed_in ann)
                   {| json := Some {| text := js "new"; competencyIDs := [] |} |}
                   7 sample)))
  = [ association 8 1 ].
Proof. reflexivity. Qed.

(** Ann asks to delete bob's entry 8: not found, bob's row stays, and the
    association of entry 8 is gone. *)
Example delete_foreign_on_sample :
  DELETE steady (signed_in ann) 8 sample
  = (not_found,
     {| store :=
          {| Entry := Entry sample_store;
             EntryCompetency := [ association 7 1; association 7 2 ] |};
        executed := [ DeleteAssociations 8; DeleteEntry 8 ann ] |}).
Proof. reflexivity. Qed.

(** A database that rejects the second insert leaves the entry with the
    new text and one of its two new associations, and the answer is 500. *)
Example put_is_not_atomic :
  PUT {| db_error := fun q _ =>
                       match q with
                       | InsertAssociation _ 1 => true
                       | _ => false
                       end;
         auto_increment := auto_increment steady;
         current_timestamp := current_timestamp steady |}
    (signed_in ann)
    {| json := Some {| text := js "new"; competencyIDs := [3; 1] |} |} 7 sample
  = (failed,
     {| store :=
          {| Entry :=
               [ {| e_id := 7; e_text := js "new"; e_createdAt := js "t7"; e_user := ann |};
                 {| e_id := 8; e_text := js "other"; e_createdAt := js "t8"; e_user := bob |} ];
             EntryCompetency := [ association 8 1; association 7 3 ] |};
        executed :=
          [ UpdateText (js "new") 7 ann; DeleteAssociations 7;
            InsertAssociation 7 3; InsertAssociation 7 1 ] |}).
Proof. reflexivity. Qed.

Example toggle_absent : DailyThought.toggle 3 [Some 1; Some 2] = [Some 1; Some 2; Some 3].
Proof. reflexivity. Qed.

Example toggle_present : DailyThought.toggle 1 [Some 1; Some 2] = [Some 2].
Proof. reflexivity. Qed.

(** Seven thoughts, five cards, in the order held. *)
Example render_seven :
  match DailyThought.render
          {| DailyThought.input := [];
             DailyThought.thoughts :=
               map (fun n => {| t_id := n; t_text := js "t"; t_time := js "now";
                                t_competencies := [] |})
                   [10; 3; 8; 1; 9; 2; 7];
             DailyThought.competencies := [];
             DailyThought.selected := [];
             DailyThought.editingId := None |} with
  | DailyThought.Cards cards => map DailyThought.key cards = [10; 3; 8; 1; 9]
  | DailyThought.Placeholder _ => False
  end.
Proof. reflexivity. Qed.

Example skillName_known_and_unknown :
  map (skillName (DailyThought.competencies draft)) [Some 1; Some 2; None]
  = [js "Teamwork"; js "#2"; js "#null"].
Proof. reflexivity. Qed.

End Examples.
